(** * EvaluationRow helpers of eval-protocol (schema/evaluation-row.ts)

    A shallow embedding of the TypeScript helpers that come with the
    EvaluationRow schema: the type guard [isEvaluationRow], the validator
    [validateEvaluationRow], the accessors [isTrajectoryEvaluation],
    [getAssistantMessages], [getUserMessages], [getInputMetadata],
    [getConversationLength] and the constructor [createEvaluationRow].

    The guard and the validator take values of type [any], and the declared
    types are erased when the code runs, so the embedding starts from a model
    of JavaScript values: primitives, and references into a store of arrays
    and plain objects.  An operation returns a value or raises; an operation
    that creates an object returns the store with the new object. *)

From stdpp Require Import base option list gmap strings pretty.
From Stdlib Require Import ZArith Ascii.

Set Default Proof Using "Type".
Local Open Scope string_scope.

(** ** JavaScript values and the object store *)

Module JS.

(** Numbers.  A double is NaN, an infinity or a signed dyadic rational
    [(-1)^neg * m * 2^e]; both zeros exist.  Rounding and range are not
    modelled: the helpers read numbers only through truthiness and through
    comparisons of an array length with zero. *)
Inductive number :=
| NaN
| Infinity (neg : bool)
| Finite (neg : bool) (m : N) (e : Z).

Definition num_of_nat (n : nat) : number := Finite false (N.of_nat n) 0.

Definition signed (neg : bool) (m : N) : Z :=
  if neg then (- Z.of_N m)%Z else Z.of_N m.

(** [scaled e0 (Finite neg m e)] is the integer [± m * 2^(e - e0)]. *)
Definition scaled (e0 : Z) (neg : bool) (m : N) (e : Z) : Z :=
  (signed neg m * 2 ^ (e - e0))%Z.

(** Number::lessThan; false as soon as one side is NaN. *)
Definition num_ltb (a b : number) : bool :=
  match a, b with
  | NaN, _ => false
  | _, NaN => false
  | Infinity na, Infinity nb => na && negb nb
  | Infinity na, Finite _ _ _ => na
  | Finite _ _ _, Infinity nb => negb nb
  | Finite s1 m1 e1, Finite s2 m2 e2 =>
      let e0 := Z.min e1 e2 in
      (scaled e0 s1 m1 e1 <? scaled e0 s2 m2 e2)%Z
  end.

(** Number::equal; NaN differs from everything, the two zeros are equal. *)
Definition num_eqb (a b : number) : bool :=
  match a, b with
  | NaN, _ => false
  | _, NaN => false
  | Infinity na, Infinity nb => Bool.eqb na nb
  | Infinity _, Finite _ _ _ => false
  | Finite _ _ _, Infinity _ => false
  | Finite s1 m1 e1, Finite s2 m2 e2 =>
      let e0 := Z.min e1 e2 in
      (scaled e0 s1 m1 e1 =? scaled e0 s2 m2 e2)%Z
  end.

Definition num_is_zero (a : number) : bool :=
  match a with
  | Finite _ m _ => bool_decide (m = 0%N)
  | _ => false
  end.

Definition num_is_nan (a : number) : bool :=
  match a with NaN => true | _ => false end.

(** Objects and arrays live in a store and are passed by reference. *)
Abbreviation loc := positive.

Inductive value :=
| VUndefined
| VNull
| VBool (b : bool)
| VNum (n : number)
| VStr (s : string)
| VRef (l : loc).

(** A store cell is an array (dense, given by its elements) or a plain
    object with its own properties.  A property can be present and hold
    [undefined]: that differs from the property being absent ([in],
    [Object.keys], [JSON.stringify]).  Functions, accessors, proxies and
    the members inherited from the built-in prototypes are not part of the
    model; strings are sequences of characters. *)
Inductive object :=
| OArray (elems : list value)
| OPlain (props : gmap string value).

Abbreviation heap := (gmap loc object).

(** Exceptions the modelled operations can raise. *)
Inductive exn := TypeError | SyntaxError.

Inductive outcome (A : Type) :=
| Ok (a : A)
| Throw (e : exn).
Arguments Ok {A} a.
Arguments Throw {A} e.

#[global] Instance outcome_ret : MRet outcome := λ A a, Ok a.
#[global] Instance outcome_bind : MBind outcome := λ A B f m,
  match m with
  | Ok a => f a
  | Throw e => Throw e
  end.

#[global] Instance number_eq_dec : EqDecision number.
Proof. solve_decision. Defined.
#[global] Instance value_eq_dec : EqDecision value.
Proof. solve_decision. Defined.
#[global] Instance exn_eq_dec : EqDecision exn.
Proof. solve_decision. Defined.
#[global] Instance outcome_eq_dec {A} `{EqDecision A} : EqDecision (outcome A).
Proof. solve_decision. Defined.

Definition returns {A} (m : outcome A) : Prop := ∃ a, m = Ok a.

(** ToBoolean *)
Definition ToBoolean (v : value) : bool :=
  match v with
  | VUndefined | VNull => false
  | VBool b => b
  | VNum n => negb (num_is_zero n || num_is_nan n)
  | VStr s => negb (bool_decide (s = ""))
  | VRef _ => true
  end.

Definition nullish (v : value) : bool :=
  match v with
  | VUndefined | VNull => true
  | _ => false
  end.

(** The [typeof] operator.  Every reference is an array or a plain object. *)
Definition typeof (v : value) : string :=
  match v with
  | VUndefined => "undefined"
  | VNull => "object"
  | VBool _ => "boolean"
  | VNum _ => "number"
  | VStr _ => "string"
  | VRef _ => "object"
  end.

(** [===] *)
Definition strict_eq (a b : value) : bool :=
  match a, b with
  | VUndefined, VUndefined => true
  | VNull, VNull => true
  | VBool x, VBool y => Bool.eqb x y
  | VNum x, VNum y => num_eqb x y
  | VStr x, VStr y => bool_decide (x = y)
  | VRef x, VRef y => bool_decide (x = y)
  | _, _ => false
  end.

(** [a ?? b] *)
Definition coalesce (a b : value) : value :=
  if nullish a then b else a.

(** Element [i] of an array is its property named by the decimal numeral of
    [i]. *)
Fixpoint index_get (k : string) (i : nat) (es : list value) : value :=
  match es with
  | [] => VUndefined
  | e :: es' => if bool_decide (k = pretty i) then e else index_get k (S i) es'
  end.

Definition array_get (es : list value) (k : string) : value :=
  if bool_decide (k = "length") then VNum (num_of_nat (length es))
  else index_get k 0 es.

Fixpoint chars (s : string) : list value :=
  match s with
  | EmptyString => []
  | String c s' => VStr (String c EmptyString) :: chars s'
  end.

Definition string_get (s : string) (k : string) : value :=
  if bool_decide (k = "length") then VNum (num_of_nat (String.length s))
  else index_get k 0 (chars s).

(** The value of property [k] of the object at [l].  A reference that the
    store does not hold stands for an object without properties. *)
Definition field (h : heap) (l : loc) (k : string) : value :=
  match h !! l with
  | Some (OArray es) => array_get es k
  | Some (OPlain ps) => default VUndefined (ps !! k)
  | None => VUndefined
  end.

(** Property read [v.k] / [v[k]].  Reading a property of [null] or
    [undefined] raises a TypeError; booleans and numbers have no own
    properties. *)
Definition Get (h : heap) (v : value) (k : string) : outcome value :=
  match v with
  | VUndefined | VNull => Throw TypeError
  | VBool _ | VNum _ => Ok VUndefined
  | VStr s => Ok (string_get s k)
  | VRef l => Ok (field h l k)
  end.

(** Optional chaining [v?.k] *)
Definition OptGet (h : heap) (v : value) (k : string) : outcome value :=
  if nullish v then Ok VUndefined else Get h v k.

(** [Array.isArray] *)
Definition IsArray (h : heap) (v : value) : bool :=
  match v with
  | VRef l => match h !! l with Some (OArray _) => true | _ => false end
  | _ => false
  end.

(** The receiver of a call [v.every(..)], [v.filter(..)], [v.forEach(..)]:
    the elements when [v] is an array.  On [null]/[undefined] the property
    read fails, on any other value the property is [undefined] and the call
    fails; both are TypeErrors. *)
Definition array_receiver (h : heap) (v : value) : outcome (list value) :=
  match v with
  | VRef l =>
      match h !! l with
      | Some (OArray es) => Ok es
      | _ => Throw TypeError
      end
  | _ => Throw TypeError
  end.

(** [Array.prototype.every]: stops at the first callback result that is not
    truthy. *)
Fixpoint every (cb : value → outcome value) (es : list value) : outcome bool :=
  match es with
  | [] => Ok true
  | e :: es' =>
      r ← cb e;
      if ToBoolean r then every cb es' else Ok false
  end.

(** [Array.prototype.filter]: the kept elements, in order. *)
Fixpoint filter_elems (cb : value → outcome value) (es : list value)
  : outcome (list value) :=
  match es with
  | [] => Ok []
  | e :: es' =>
      r ← cb e;
      rest ← filter_elems cb es';
      Ok (if ToBoolean r then e :: rest else rest)
  end.

(** [Array.prototype.forEach] with a callback [(element, index)] that
    updates a captured variable of type [St]. *)
Fixpoint forEach_from {St : Type} (cb : value → nat → St → outcome St)
    (i : nat) (es : list value) (s : St) : outcome St :=
  match es with
  | [] => Ok s
  | e :: es' => s' ← cb e i s; forEach_from cb (S i) es' s'
  end.

Definition forEach {St : Type} (cb : value → nat → St → outcome St)
    (es : list value) (s : St) : outcome St :=
  forEach_from cb 0 es s.

(** [Array.prototype.push] on an array of strings held in a local variable *)
Definition push (errors : list string) (e : string) : list string :=
  errors ++ [e].

(** Allocation of a new object or array. *)
Definition alloc (h : heap) (o : object) : value * heap :=
  let l := fresh (dom h) in (VRef l, <[l := o]> h).

(** ToNumber.  The conversion of strings (StringToNumber) and of objects
    (ToPrimitive, which may itself raise) are left as parameters. *)
Section ToNumber.
Variable StringToNumber : string → number.
Variable ObjectToNumber : heap → loc → outcome number.

Definition ToNumber (h : heap) (v : value) : outcome number :=
  match v with
  | VUndefined => Ok NaN
  | VNull => Ok (num_of_nat 0)
  | VBool b => Ok (num_of_nat (if b then 1 else 0))
  | VNum n => Ok n
  | VStr s => Ok (StringToNumber s)
  | VRef l => ObjectToNumber h l
  end.

(** [a > b] when [b] is a number *)
Definition gt_num (h : heap) (a : value) (b : number) : outcome bool :=
  n ← ToNumber h a; Ok (num_ltb b n).
End ToNumber.

End JS.

Import JS.

(** [a && b]: the left operand when it is not truthy, else the right one. *)
Definition land (a b : outcome value) : outcome value :=
  x ← a; if ToBoolean x then b else Ok x.
Infix "<&&>" := land (at level 41, left associativity).

(** ** The declared types (evaluation-row.d.ts) *)

(** The fragment of TypeScript types the declarations use.  A field of an
    interface is [(name, (optional, type))]. *)
#[warnings="-register-all"]
Inductive ty :=
| TAny
| TString
| TNumber
| TBoolean
| TLiteral (s : string)
| TUnion (a b : ty)
| TArray (elem : ty)
| TRecord (val : ty)
| TInterface (fields : list (string * (bool * ty))).

Definition required (name : string) (t : ty) : string * (bool * ty) :=
  (name, (false, t)).
Definition optional (name : string) (t : ty) : string * (bool * ty) :=
  (name, (true, t)).

Definition FunctionCall : ty :=
  TInterface [required "name" TString; required "arguments" TString].

Definition ToolCall : ty :=
  TInterface [required "id" TString;
              required "type" (TLiteral "function");
              required "function" FunctionCall].

Definition Message : ty :=
  TInterface [required "role" TString;
              optional "content" TString;
              optional "name" TString;
              optional "tool_call_id" TString;
              optional "tool_calls" (TArray ToolCall);
              optional "function_call" FunctionCall].

Definition MetricResult : ty :=
  TInterface [required "is_score_valid" TBoolean;
              required "score" TNumber;
              required "reason" TString].

Definition StepOutput : ty :=
  TInterface [required "step_index" (TUnion TNumber TString);
              required "base_reward" TNumber;
              optional "terminated" TBoolean;
              optional "control_plane_info" (TRecord TAny);
              optional "metrics" (TRecord TAny);
              optional "reason" TString].

Definition EvaluateResult : ty :=
  TInterface [required "score" TNumber;
              optional "is_score_valid" TBoolean;
              optional "reason" TString;
              optional "metrics" (TRecord MetricResult);
              optional "step_outputs" (TArray StepOutput);
              optional "error" TString;
              optional "trajectory_info" (TRecord TAny);
              optional "final_control_plane_info" (TRecord TAny)].

Definition EvaluationRow : ty :=
  TInterface [required "messages" (TArray Message);
              optional "tools" (TArray (TRecord TAny));
              optional "input_metadata" (TRecord TAny);
              optional "ground_truth" TString;
              optional "evaluation_result" EvaluateResult].

(** [conforms h t v]: the value [v] inhabits the type [t] in the store [h],
    structurally, as the compiler checks it under strictNullChecks: an
    optional field may be missing or hold [undefined], further properties are
    allowed, [null] inhabits only [any]. *)
Fixpoint conforms (h : heap) (t : ty) (v : value) {struct t} : bool :=
  match t with
  | TAny => true
  | TString => bool_decide (typeof v = "string")
  | TNumber => bool_decide (typeof v = "number")
  | TBoolean => bool_decide (typeof v = "boolean")
  | TLiteral s => strict_eq v (VStr s)
  | TUnion a b => conforms h a v || conforms h b v
  | TArray t' =>
      match v with
      | VRef l =>
          match h !! l with
          | Some (OArray es) => forallb (conforms h t') es
          | _ => false
          end
      | _ => false
      end
  | TRecord t' =>
      match v with
      | VRef l =>
          match h !! l with
          | Some (OArray es) => forallb (conforms h t') es
          | Some (OPlain ps) =>
              forallb (λ kv, conforms h t' kv.2) (map_to_list ps)
          | None => true
          end
      | _ => false
      end
  | TInterface fields =>
      match v with
      | VRef l =>
          (fix fields_ok (fs : list (string * (bool * ty))) : bool :=
             match fs with
             | [] => true
             | (name, (opt, t')) :: fs' =>
                 let fv := field h l name in
                 ((opt && strict_eq fv VUndefined) || conforms h t' fv)
                 && fields_ok fs'
             end) fields
      | _ => false
      end
  end.

(** ** The helpers (evaluation-row.ts) *)

(** What [validateEvaluationRow] returns: the fields of the new object
    [{ valid, errors }], the array [errors] given by its elements. *)
Record report := Report { valid : bool; errors : list string }.

(** The callback of [every] in the type guard. *)
Definition message_guard (h : heap) (msg : value) : outcome value :=
  Ok msg
  <&&> Ok (VBool (strict_eq (VStr (typeof msg)) (VStr "object")))
  <&&> (role ← Get h msg "role";
        Ok (VBool (strict_eq (VStr (typeof role)) (VStr "string")))).

(** [isEvaluationRow(obj)].  The result is the value of the [&&] chain: a
    boolean, or [obj] itself when [obj] is not truthy. *)
Definition isEvaluationRow (h : heap) (obj : value) : outcome value :=
  Ok obj
  <&&> Ok (VBool (strict_eq (VStr (typeof obj)) (VStr "object")))
  <&&> (messages ← Get h obj "messages"; Ok (VBool (IsArray h messages)))
  <&&> (messages ← Get h obj "messages";
        es ← array_receiver h messages;
        b ← every (message_guard h) es;
        Ok (VBool b)).

(** [isTrajectoryEvaluation(row)] *)
Section isTrajectoryEvaluation.
Variable StringToNumber : string → number.
Variable ObjectToNumber : heap → loc → outcome number.

Definition isTrajectoryEvaluation (h : heap) (row : value) : outcome value :=
  (evaluation_result ← Get h row "evaluation_result";
   Ok (VBool (negb (strict_eq evaluation_result VUndefined))))
  <&&> (evaluation_result ← Get h row "evaluation_result";
       step_outputs ← Get h evaluation_result "step_outputs";
       Ok (VBool (negb (strict_eq step_outputs VUndefined))))
  <&&> (evaluation_result ← Get h row "evaluation_result";
       step_outputs ← Get h evaluation_result "step_outputs";
       len ← Get h step_outputs "length";
       b ← gt_num StringToNumber ObjectToNumber h len (num_of_nat 0);
       Ok (VBool b)).
End isTrajectoryEvaluation.

(** The callback [msg => msg.role === r] of the two filters. *)
Definition role_is (h : heap) (r : string) (msg : value) : outcome value :=
  role ← Get h msg "role"; Ok (VBool (strict_eq role (VStr r))).

(** [getAssistantMessages(row)]: the new array and the store that holds it. *)
Definition getAssistantMessages (h : heap) (row : value)
  : outcome (value * heap) :=
  messages ← Get h row "messages";
  es ← array_receiver h messages;
  kept ← filter_elems (role_is h "assistant") es;
  Ok (alloc h (OArray kept)).

(** [getUserMessages(row)] *)
Definition getUserMessages (h : heap) (row : value)
  : outcome (value * heap) :=
  messages ← Get h row "messages";
  es ← array_receiver h messages;
  kept ← filter_elems (role_is h "user") es;
  Ok (alloc h (OArray kept)).

(** [getInputMetadata(row, key, defaultValue)]; a missing [defaultValue] is
    [undefined]. *)
Definition getInputMetadata (h : heap) (row : value) (key : string)
    (defaultValue : value) : outcome value :=
  input_metadata ← Get h row "input_metadata";
  v ← OptGet h input_metadata key;
  Ok (coalesce v defaultValue).

(** [getConversationLength(row)] *)
Definition getConversationLength (h : heap) (row : value) : outcome value :=
  messages ← Get h row "messages";
  Get h messages "length".

(** [createEvaluationRow(messages, options)]; a missing [options] is
    [undefined].  The object literal defines its five properties in order. *)
Definition createEvaluationRow (h : heap) (messages options : value)
  : outcome (value * heap) :=
  tools ← OptGet h options "tools";
  input_metadata ← OptGet h options "inputMetadata";
  ground_truth ← OptGet h options "groundTruth";
  evaluation_result ← OptGet h options "evaluationResult";
  Ok (alloc h (OPlain (<["evaluation_result" := evaluation_result]>
                      (<["ground_truth" := ground_truth]>
                      (<["input_metadata" := input_metadata]>
                      (<["tools" := tools]>
                      (<["messages" := messages]> ∅))))))).

(** The [forEach] callback of the validator; [errors] is the captured
    array. *)
Definition check_message (h : heap) (msg : value) (index : nat)
    (errors : list string) : outcome (list string) :=
  if negb (ToBoolean msg)
     || negb (strict_eq (VStr (typeof msg)) (VStr "object"))
  then Ok (push errors ("messages[" +:+ pretty index +:+ "] must be an object"))
  else
    role ← Get h msg "role";
    if negb (strict_eq (VStr (typeof role)) (VStr "string"))
    then Ok (push errors
               ("messages[" +:+ pretty index +:+ "].role must be a string"))
    else Ok errors.

(** [validateEvaluationRow(row)] *)
Definition validateEvaluationRow (h : heap) (row : value) : outcome report :=
  let errors := [] in
  if negb (ToBoolean row) then
    let errors := push errors "EvaluationRow is null or undefined" in
    Ok (Report false errors)
  else
    errors ←
      (messages ← Get h row "messages";
       if negb (IsArray h messages) then
         Ok (push errors "messages field is required and must be an array")
       else
         len ← Get h messages "length";
         if strict_eq len (VNum (num_of_nat 0)) then
           Ok (push errors "messages array cannot be empty")
         else
           es ← array_receiver h messages;
           forEach (check_message h) es errors);
    Ok (Report (strict_eq (VNum (num_of_nat (length errors)))
                          (VNum (num_of_nat 0)))
               errors).

(** ** JSON serialisation ([JSON.stringify], [JSON.parse]) *)

Module JSON.

(** A JSON document, by its structure.  The text between [JSON.stringify]
    and [JSON.parse] is not modelled: reading a printed document gives the
    document back (a finite number prints to a numeral that reads as the same
    number, a string to a literal that reads as the same string). *)
#[warnings="-register-all"]
Inductive json :=
| JNull
| JBool (b : bool)
| JNum (n : number)
| JStr (s : string)
| JArr (items : list json)
| JObj (members : list (string * json)).

(** Induction on documents, with the hypothesis for every item and member. *)
Section json_induction.
Variable P : json → Prop.
Hypothesis Hnull : P JNull.
Hypothesis Hbool : ∀ b, P (JBool b).
Hypothesis Hnum : ∀ n, P (JNum n).
Hypothesis Hstr : ∀ s, P (JStr s).
Hypothesis Harr : ∀ js, Forall P js → P (JArr js).
Hypothesis Hobj : ∀ ms, Forall (λ kv, P kv.2) ms → P (JObj ms).

Fixpoint json_induction (j : json) : P j :=
  match j with
  | JNull => Hnull
  | JBool b => Hbool b
  | JNum n => Hnum n
  | JStr s => Hstr s
  | JArr js =>
      Harr js ((fix items (js : list json) : Forall P js :=
                  match js with
                  | [] => Forall_nil_2 P
                  | j :: js' =>
                      Forall_cons_2 P j js' (json_induction j) (items js')
                  end) js)
  | JObj ms =>
      Hobj ms ((fix members (ms : list (string * json))
                  : Forall (λ kv, P kv.2) ms :=
                  match ms with
                  | [] => Forall_nil_2 _
                  | kv :: ms' =>
                      Forall_cons_2 (λ kv, P kv.2) kv ms'
                        (json_induction kv.2) (members ms')
                  end) ms)
  end.
End json_induction.

(** Results of a computation bounded by fuel: [None] when the fuel ran
    out. *)
Abbreviation fuelled A := (option (outcome A)).

(** SerializeJSONArray over the elements: an element without a
    serialisation ([undefined]) is printed as [null]. *)
Fixpoint ser_elems (ser : value → fuelled (option json)) (es : list value)
  : fuelled (list json) :=
  match es with
  | [] => Some (Ok [])
  | e :: es' =>
      match ser e with
      | None => None
      | Some (Throw x) => Some (Throw x)
      | Some (Ok r) =>
          match ser_elems ser es' with
          | None => None
          | Some (Throw x) => Some (Throw x)
          | Some (Ok js) => Some (Ok (default JNull r :: js))
          end
      end
  end.

(** SerializeJSONObject over the properties: a property without a
    serialisation is left out. *)
Fixpoint ser_members (ser : value → fuelled (option json))
    (kvs : list (string * value)) : fuelled (list (string * json)) :=
  match kvs with
  | [] => Some (Ok [])
  | (k, e) :: kvs' =>
      match ser e with
      | None => None
      | Some (Throw x) => Some (Throw x)
      | Some (Ok r) =>
          match ser_members ser kvs' with
          | None => None
          | Some (Throw x) => Some (Throw x)
          | Some (Ok ms) =>
              Some (Ok match r with
                       | Some j => (k, j) :: ms
                       | None => ms
                       end)
          end
      end
  end.

(** The numeral of a finite number; the negative zero prints as [0]. *)
Definition ser_number (n : number) : json :=
  match n with
  | Finite neg m e =>
      if bool_decide (m = 0%N) then JNum (Finite false m e)
      else JNum (Finite neg m e)
  | _ => JNull
  end.

(** SerializeJSONProperty.  [stack] holds the objects being serialised: a
    value met again below itself is a cycle, a TypeError.  The properties of
    an object are visited in the order of [map_to_list]. *)
Fixpoint SerializeJSONProperty (fuel : nat) (h : heap) (stack : list loc)
    (v : value) : fuelled (option json) :=
  match v with
  | VUndefined => Some (Ok None)
  | VNull => Some (Ok (Some JNull))
  | VBool b => Some (Ok (Some (JBool b)))
  | VNum n => Some (Ok (Some (ser_number n)))
  | VStr s => Some (Ok (Some (JStr s)))
  | VRef l =>
      if bool_decide (l ∈ stack) then Some (Throw TypeError)
      else
        match h !! l with
        | None => Some (Ok (Some (JObj [])))
        | Some o =>
            match fuel with
            | 0 => None
            | S fuel' =>
                let ser := SerializeJSONProperty fuel' h (l :: stack) in
                match o with
                | OArray es =>
                    match ser_elems ser es with
                    | None => None
                    | Some (Throw x) => Some (Throw x)
                    | Some (Ok js) => Some (Ok (Some (JArr js)))
                    end
                | OPlain ps =>
                    match ser_members ser (map_to_list ps) with
                    | None => None
                    | Some (Throw x) => Some (Throw x)
                    | Some (Ok ms) => Some (Ok (Some (JObj ms)))
                    end
                end
            end
        end
  end.

(** [JSON.stringify(v)]: a document, or [undefined] ([None]).  The nesting
    depth of a serialisation without cycle is at most the number of objects
    in the store, which is the fuel. *)
Definition stringify (h : heap) (v : value) : fuelled (option json) :=
  SerializeJSONProperty (size h) h [] v.

Fixpoint parse_items (p : json → heap → value * heap) (js : list json)
    (h : heap) : list value * heap :=
  match js with
  | [] => ([], h)
  | j :: js' =>
      let '(v, h1) := p j h in
      let '(vs, h2) := parse_items p js' h1 in
      (v :: vs, h2)
  end.

(** A member defined twice keeps its last value. *)
Fixpoint parse_members (p : json → heap → value * heap)
    (ms : list (string * json)) (acc : gmap string value) (h : heap)
  : gmap string value * heap :=
  match ms with
  | [] => (acc, h)
  | (k, j) :: ms' =>
      let '(v, h1) := p j h in
      parse_members p ms' (<[k := v]> acc) h1
  end.

(** [JSON.parse] of a document: every array and object of the document is
    a new object of the store. *)
Fixpoint parse (j : json) (h : heap) {struct j} : value * heap :=
  match j with
  | JNull => (VNull, h)
  | JBool b => (VBool b, h)
  | JNum n => (VNum n, h)
  | JStr s => (VStr s, h)
  | JArr js =>
      let '(vs, h1) := parse_items parse js h in
      alloc h1 (OArray vs)
  | JObj ms =>
      let '(ps, h1) := parse_members parse ms ∅ h in
      alloc h1 (OPlain ps)
  end.

(** [JSON.parse(JSON.stringify(v))].  [JSON.parse(undefined)] reads the text
    [undefined], a SyntaxError. *)
Definition roundtrip (h : heap) (v : value) : fuelled (value * heap) :=
  match stringify h v with
  | None => None
  | Some (Throw x) => Some (Throw x)
  | Some (Ok None) => Some (Throw SyntaxError)
  | Some (Ok (Some j)) => Some (Ok (parse j h))
  end.

End JSON.

Import JSON.

(** ** The specification's reading of the validator *)

(** "Element [i] is not an object" / "its role is not a string", in the
    words of the specification. *)
Definition is_object (v : value) : bool :=
  match v with VRef _ => true | _ => false end.

Definition has_string_role (h : heap) (v : value) : bool :=
  match v with
  | VRef l => match field h l "role" with VStr _ => true | _ => false end
  | _ => false
  end.

Definition message_error (h : heap) (i : nat) (msg : value) : option string :=
  if negb (is_object msg) then
    Some ("messages[" +:+ pretty i +:+ "] must be an object")
  else if negb (has_string_role h msg) then
    Some ("messages[" +:+ pretty i +:+ "].role must be a string")
  else None.

Definition message_errors (h : heap) (es : list value) : list string :=
  omap id (imap (message_error h) es).

Definition message_ok (h : heap) (msg : value) : bool :=
  is_object msg && has_string_role h msg.

(** "The messages whose role equals [r]". *)
Definition has_role (h : heap) (r : string) (msg : value) : bool :=
  bool_decide (Get h msg "role" = Ok (VStr r)).

(** [k in v] for an object [v]: the value of the own property [k]. *)
Definition own_property (h : heap) (v : value) (k : string) : option value :=
  match v with
  | VRef l =>
      match h !! l with
      | Some (OPlain ps) => ps !! k
      | _ => None
      end
  | _ => None
  end.


(** ** Auxiliary predicates *)

(** The name of an element of an array starts with a digit. *)
Definition digit_head (k : string) : bool :=
  match k with
  | String c _ => bool_decide (c ∈ ["0"; "1"; "2"; "3"; "4"; "5"; "6"; "7";
                                    "8"; "9"]%char)
  | EmptyString => false
  end.

(** What the accessors rely on in a row of type [EvaluationRow]. *)
Record row_shape (h : heap) (row : value) : Prop := RowShape {
  shape_messages :
    ∃ lm es, Get h row "messages" = Ok (VRef lm)
      ∧ h !! lm = Some (OArray es)
      ∧ Forall (λ msg, is_object msg = true) es;
  shape_evaluation_result :
    Get h row "evaluation_result" = Ok VUndefined
    ∨ ∃ le, Get h row "evaluation_result" = Ok (VRef le)
        ∧ (field h le "step_outputs" = VUndefined
           ∨ ∃ ls steps, field h le "step_outputs" = VRef ls
               ∧ h !! ls = Some (OArray steps));
}.

(** What the validator reads of a value: whether it is falsy, whether its
    [messages] is an array and, for each element, whether it is an object and
    whether its [role] is a string. *)
Inductive view :=
| Falsy
| NoMessages
| Messages (kinds : list (bool * bool)).

Definition message_kind (h : heap) (msg : value) : bool * bool :=
  (is_object msg, has_string_role h msg).

Definition messages_view (h : heap) (messages : value) : view :=
  match messages with
  | VRef lm =>
      match h !! lm with
      | Some (OArray es) => Messages (message_kind h <$> es)
      | _ => NoMessages
      end
  | _ => NoMessages
  end.

Definition row_view (h : heap) (row : value) : view :=
  if ToBoolean row then
    match Get h row "messages" with
    | Ok messages => messages_view h messages
    | Throw _ => NoMessages
    end
  else Falsy.

Definition kind_error (i : nat) (kind : bool * bool) : option string :=
  if negb kind.1 then
    Some ("messages[" +:+ pretty i +:+ "] must be an object")
  else if negb kind.2 then
    Some ("messages[" +:+ pretty i +:+ "].role must be a string")
  else None.

Definition view_report (w : view) : report :=
  match w with
  | Falsy => Report false ["EvaluationRow is null or undefined"]
  | NoMessages =>
      Report false ["messages field is required and must be an array"]
  | Messages kinds =>
      if bool_decide (kinds = []) then
        Report false ["messages array cannot be empty"]
      else
        let errs := omap id (imap kind_error kinds) in
        Report (bool_decide (errs = [])) errs
  end.

(** The same reading of a document.  [member k ms] is the member that
    [JSON.parse] keeps for the name [k]: the last one. *)
Fixpoint member (k : string) (ms : list (string * json)) : option json :=
  match ms with
  | [] => None
  | (k', j) :: ms' =>
      match member k ms' with
      | Some j' => Some j'
      | None => if bool_decide (k' = k) then Some j else None
      end
  end.

Definition json_kind (j : json) : bool * bool :=
  match j with
  | JObj ms =>
      (true, match member "role" ms with Some (JStr _) => true | _ => false end)
  | JArr _ => (true, false)
  | _ => (false, false)
  end.

Definition json_truthy (j : json) : bool :=
  match j with
  | JNull => false
  | JBool b => b
  | JNum n => ToBoolean (VNum n)
  | JStr s => ToBoolean (VStr s)
  | JArr _ | JObj _ => true
  end.

Definition json_view (j : json) : view :=
  if json_truthy j then
    match j with
    | JObj ms =>
        match member "messages" ms with
        | Some (JArr js) => Messages (json_kind <$> js)
        | _ => NoMessages
        end
    | _ => NoMessages
    end
  else Falsy.

Definition is_infinity (v : value) : bool :=
  match v with VNum (Infinity _) => true | _ => false end.

(** [p] only adds objects to the store when it reads [j]. *)
Definition extends (p : json → heap → value * heap) (j : json) : Prop :=
  ∀ h v h', p j h = (v, h') → h ⊆ h'.

(** ** Example stores *)

Module Examples.

(** The doubles nearest to 0.3 and 0.7. *)
Definition n0_3 : number := Finite false 5404319552844595 (-54).
Definition n0_7 : number := Finite false 3152519739159347 (-52).
Definition n0_5 : number := Finite false 1 (-1).

Definition message (role content : string) : object :=
  OPlain (<["content" := VStr content]> {["role" := VStr role]}).

(** At location 1 a row like that of [createTrajectoryExample] (example.ts),
    and a few other rows:
    - 12: [{}]
    - 13: [{ messages: [] }]
    - 15: [{ messages: [{role: "user", ..}, {notRole: 1}] }]
    - 18: [{ messages: [..], input_metadata: {model: null} }]
    - 20: [{ messages: [..], evaluation_result: null }]
    - 21: [{ messages: [null] }]
    - 23: an object that contains itself. *)
Definition store : heap :=
  list_to_map
    [(1%positive,
      OPlain (list_to_map
        [("messages", VRef 2);
         ("input_metadata", VRef 7);
         ("ground_truth", VStr "Task completed successfully");
         ("evaluation_result", VRef 8)]));
     (2%positive, OArray [VRef 3; VRef 4; VRef 5; VRef 6]);
     (3%positive, message "user" "Start task");
     (4%positive, message "assistant" "Starting step 1");
     (5%positive, message "user" "Continue");
     (6%positive, message "assistant" "Completing step 2");
     (7%positive,
      OPlain (list_to_map
        [("row_id", VStr "trajectory_001");
         ("model", VStr "gpt-4");
         ("session_data", VRef 24)]));
     (8%positive,
      OPlain (list_to_map
        [("score", VNum n0_5);
         ("reason", VStr "Task completed in 2 steps");
         ("step_outputs", VRef 9)]));
     (9%positive, OArray [VRef 10; VRef 11]);
     (10%positive,
      OPlain (list_to_map
        [("step_index", VNum (num_of_nat 0));
         ("base_reward", VNum n0_3);
         ("terminated", VBool false)]));
     (11%positive,
      OPlain (list_to_map
        [("step_index", VNum (num_of_nat 1));
         ("base_reward", VNum n0_7);
         ("terminated", VBool true)]));
     (12%positive, OPlain ∅);
     (13%positive, OPlain {["messages" := VRef 14]});
     (14%positive, OArray []);
     (15%positive, OPlain {["messages" := VRef 16]});
     (16%positive, OArray [VRef 3; VRef 17]);
     (17%positive, OPlain {["notRole" := VNum (num_of_nat 1)]});
     (18%positive,
      OPlain (list_to_map
        [("messages", VRef 2); ("input_metadata", VRef 19)]));
     (19%positive, OPlain {["model" := VNull]});
     (20%positive,
      OPlain (list_to_map
        [("messages", VRef 2); ("evaluation_result", VNull)]));
     (21%positive, OPlain {["messages" := VRef 22]});
     (22%positive, OArray [VNull]);
     (23%positive, OPlain {["self" := VRef 23]});
     (24%positive,
      OPlain (list_to_map
        [("seed", VNum (num_of_nat 123));
         ("environment", VStr "gridworld")]))].

(** Stand-ins for the two conversions that [ToNumber] takes as
    parameters. *)
Definition StringToNumber (s : string) : number := NaN.
Definition ObjectToNumber (h : heap) (l : loc) : outcome number := Ok NaN.

End Examples.

(** ** Allocated values *)

(** A reference is allocated when the store holds its object; primitives
    always are. *)
Definition allocated (h : heap) (v : value) : Prop :=
  match v with
  | VRef l => is_Some (h !! l)
  | _ => True
  end.

(** The number of elements of a list that fail a test. *)
Definition count_failing {A} (ok : A → bool) (l : list A) : nat :=
  length (filter (λ x, ok x = false) l).

(** A string of decimal digits. *)
Fixpoint all_digits (s : string) : bool :=
  match s with
  | EmptyString => true
  | String c s' => digit_head (String c EmptyString) && all_digits s'
  end.

(** The rows the two filters accept: [messages] is an array without [null]
    or [undefined] elements. *)
Definition filterable (h : heap) (row : value) : Prop :=
  ∃ lm es, Get h row "messages" = Ok (VRef lm)
    ∧ h !! lm = Some (OArray es)
    ∧ Forall (λ msg, nullish msg = false) es.

(** ** The examples (example.ts) *)

(** An object or array literal makes a new object.  The parts of a nested
    literal are written here before the literal that holds them; which
    location an object gets is not observable. *)
Definition object_literal (fields : list (string * value)) (h : heap)
  : value * heap :=
  alloc h (OPlain (list_to_map fields)).

Definition array_literal (es : list value) (h : heap) : value * heap :=
  alloc h (OArray es).

(** The doubles nearest to 45.2 and 0.9. *)
Definition n45_2 : number := Finite false 3180667236830413 (-46).
Definition n0_9 : number := Finite false 8106479329266893 (-53).

(** [createPerTurnExample()] *)
Definition createPerTurnExample (h : heap) : outcome (value * heap) :=
  let '(user, h) :=
    object_literal [("role", VStr "user");
                    ("content", VStr "What is 2+2?")] h in
  let '(assistant, h) :=
    object_literal [("role", VStr "assistant");
                    ("content", VStr "2+2 equals 4.")] h in
  let '(messages, h) := array_literal [user; assistant] h in
  let '(accuracy, h) :=
    object_literal [("is_score_valid", VBool true);
                    ("score", VNum (num_of_nat 1));
                    ("reason", VStr "Perfect")] h in
  let '(metrics, h) := object_literal [("accuracy", accuracy)] h in
  let '(evaluationResult, h) :=
    object_literal [("score", VNum (num_of_nat 1));
                    ("reason", VStr "Correct answer");
                    ("metrics", metrics)] h in
  let '(dataset_info, h) :=
    object_literal [("source", VStr "math_eval")] h in
  let '(model_config, h) :=
    object_literal [("model", VStr "gpt-4");
                    ("temperature", VNum (num_of_nat 0))] h in
  let '(inputMetadata, h) :=
    object_literal [("row_id", VStr "math_001");
                    ("dataset_info", dataset_info);
                    ("model_config", model_config)] h in
  let '(options, h) :=
    object_literal [("groundTruth", VStr "4");
                    ("evaluationResult", evaluationResult);
                    ("inputMetadata", inputMetadata)] h in
  createEvaluationRow h messages options.

(** [createTrajectoryExample()] *)
Definition createTrajectoryExample (h : heap) : outcome (value * heap) :=
  let '(m0, h) :=
    object_literal [("role", VStr "user");
                    ("content", VStr "Start task")] h in
  let '(m1, h) :=
    object_literal [("role", VStr "assistant");
                    ("content", VStr "Starting step 1")] h in
  let '(m2, h) :=
    object_literal [("role", VStr "user");
                    ("content", VStr "Continue")] h in
  let '(m3, h) :=
    object_literal [("role", VStr "assistant");
                    ("content", VStr "Completing step 2")] h in
  let '(messages, h) := array_literal [m0; m1; m2; m3] h in
  let '(step0, h) :=
    object_literal [("step_index", VNum (num_of_nat 0));
                    ("base_reward", VNum Examples.n0_3);
                    ("terminated", VBool false)] h in
  let '(control_plane_info, h) :=
    object_literal [("task_completed", VBool true)] h in
  let '(step1, h) :=
    object_literal [("step_index", VNum (num_of_nat 1));
                    ("base_reward", VNum Examples.n0_7);
                    ("terminated", VBool true);
                    ("control_plane_info", control_plane_info)] h in
  let '(stepOutputs, h) := array_literal [step0; step1] h in
  let '(trajectory_info, h) :=
    object_literal [("duration", VNum n45_2);
                    ("steps", VNum (num_of_nat 2));
                    ("termination_reason", VStr "task_completed")] h in
  let '(final_control_plane_info, h) :=
    object_literal [("task_completed", VBool true)] h in
  let '(evaluationResult, h) :=
    object_literal [("score", VNum Examples.n0_5);
                    ("reason", VStr "Task completed in 2 steps");
                    ("step_outputs", stepOutputs);
                    ("trajectory_info", trajectory_info);
                    ("final_control_plane_info", final_control_plane_info)]
      h in
  let '(session_data, h) :=
    object_literal [("seed", VNum (num_of_nat 123));
                    ("environment", VStr "gridworld")] h in
  let '(execution_info, h) :=
    object_literal [("max_steps", VNum (num_of_nat 10));
                    ("timeout", VNum (num_of_nat 60))] h in
  let '(inputMetadata, h) :=
    object_literal [("row_id", VStr "trajectory_001");
                    ("session_data", session_data);
                    ("execution_info", execution_info)] h in
  let '(options, h) :=
    object_literal [("groundTruth", VStr "Task completed successfully");
                    ("evaluationResult", evaluationResult);
                    ("inputMetadata", inputMetadata)] h in
  createEvaluationRow h messages options.

(** The double quote, for the JSON text held by the tool call. *)
Definition dquote : string := String "034"%char "".

(** [createToolUsageExample()] *)
Definition createToolUsageExample (h : heap) : outcome (value * heap) :=
  let '(m0, h) :=
    object_literal [("role", VStr "user");
                    ("content", VStr "Search for recent papers on ML")] h in
  let '(call_function, h) :=
    object_literal
      [("name", VStr "search_papers");
       ("arguments",
        VStr ("{" +:+ dquote +:+ "query" +:+ dquote +:+ ": " +:+ dquote
              +:+ "machine learning" +:+ dquote +:+ ", " +:+ dquote
              +:+ "recent" +:+ dquote +:+ ": true}"))] h in
  let '(call, h) :=
    object_literal [("id", VStr "search_1");
                    ("type", VStr "function");
                    ("function", call_function)] h in
  let '(tool_calls, h) := array_literal [call] h in
  let '(m1, h) :=
    object_literal [("role", VStr "assistant");
                    ("content", VStr "I'll search for recent ML papers.");
                    ("tool_calls", tool_calls)] h in
  let '(messages, h) := array_literal [m0; m1] h in
  let '(query, h) := object_literal [("type", VStr "string")] h in
  let '(recent, h) := object_literal [("type", VStr "boolean")] h in
  let '(properties, h) :=
    object_literal [("query", query); ("recent", recent)] h in
  let '(parameters, h) :=
    object_literal [("type", VStr "object");
                    ("properties", properties)] h in
  let '(tool_function, h) :=
    object_literal [("name", VStr "search_papers");
                    ("description", VStr "Search academic papers");
                    ("parameters", parameters)] h in
  let '(tool, h) :=
    object_literal [("type", VStr "function");
                    ("function", tool_function)] h in
  let '(tools, h) := array_literal [tool] h in
  let '(evaluationResult, h) :=
    object_literal [("score", VNum n0_9);
                    ("reason", VStr "Good tool usage")] h in
  let '(dataset_info, h) :=
    object_literal [("category", VStr "tool_usage");
                    ("complexity", VStr "medium")] h in
  let '(inputMetadata, h) :=
    object_literal [("row_id", VStr "search_001");
                    ("dataset_info", dataset_info)] h in
  let '(options, h) :=
    object_literal [("tools", tools);
                    ("groundTruth", VStr "Recent ML papers found");
                    ("evaluationResult", evaluationResult);
                    ("inputMetadata", inputMetadata)] h in
  createEvaluationRow h messages options.

(** [a || b]: the left operand when it is truthy, else the right one. *)
Definition lor (a b : outcome value) : outcome value :=
  x ← a; if ToBoolean x then Ok x else b.

(** [Array.prototype.some]: stops at the first truthy callback result. *)
Fixpoint some (cb : value → outcome value) (es : list value) : outcome bool :=
  match es with
  | [] => Ok false
  | e :: es' =>
      r ← cb e;
      if ToBoolean r then Ok true else some cb es'
  end.

(** [console.log] adds a line to the output. *)
Definition log (out : list string) (line : string) : list string :=
  out ++ [line].

(** [Array.prototype.join] on an array of strings *)
Definition join (sep : string) (ss : list string) : string :=
  String.concat sep ss.

Definition newline : string := String "010"%char "".

(** [demonstrateUsage()]: the lines written to the console and the final
    store.  The conversions of numbers and of objects to strings are left as
    parameters, like those to numbers. *)
Section demonstrateUsage.
Variable StringToNumber : string → number.
Variable ObjectToNumber : heap → loc → outcome number.
Variable NumberToString : number → string.
Variable ObjectToString : heap → loc → outcome string.

(** ToString, as a template literal applies it to a substitution *)
Definition ToString (h : heap) (v : value) : outcome string :=
  match v with
  | VUndefined => Ok "undefined"
  | VNull => Ok "null"
  | VBool b => Ok (if b then "true" else "false")
  | VNum n => Ok (NumberToString n)
  | VStr s => Ok s
  | VRef l => ObjectToString h l
  end.

Definition demonstrateUsage (h : heap) : outcome (list string * heap) :=
  let out := [] in
  let out := log out ("=== EvaluationRow Schema Examples ===" +:+ newline) in
  (* Per-turn evaluation *)
  '(perTurnRow, h) ← createPerTurnExample h;
  let out := log out "1. Per-Turn Evaluation:" in
  v ← isEvaluationRow h perTurnRow;
  s ← ToString h v;
  let out := log out ("   Valid: " +:+ s) in
  v ← isTrajectoryEvaluation StringToNumber ObjectToNumber h perTurnRow;
  s ← ToString h v;
  let out := log out ("   Is Trajectory: " +:+ s) in
  '(assistants, h) ← getAssistantMessages h perTurnRow;
  v ← Get h assistants "length";
  s ← ToString h v;
  let out := log out ("   Assistant Messages: " +:+ s) in
  v ← getInputMetadata h perTurnRow "dataset_info.source" (VStr "unknown");
  s ← ToString h v;
  let out := log out ("   Dataset Source: " +:+ s) in
  let out := log out "" in
  (* Trajectory evaluation *)
  '(trajectoryRow, h) ← createTrajectoryExample h;
  let out := log out "2. Trajectory Evaluation:" in
  v ← isEvaluationRow h trajectoryRow;
  s ← ToString h v;
  let out := log out ("   Valid: " +:+ s) in
  v ← isTrajectoryEvaluation StringToNumber ObjectToNumber h trajectoryRow;
  s ← ToString h v;
  let out := log out ("   Is Trajectory: " +:+ s) in
  v ← lor (evaluation_result ← Get h trajectoryRow "evaluation_result";
           step_outputs ← OptGet h evaluation_result "step_outputs";
           OptGet h step_outputs "length")
          (Ok (VNum (num_of_nat 0)));
  s ← ToString h v;
  let out := log out ("   Steps: " +:+ s) in
  v ← getInputMetadata h trajectoryRow "session_data.environment"
        (VStr "unknown");
  s ← ToString h v;
  let out := log out ("   Environment: " +:+ s) in
  let out := log out "" in
  (* Tool usage *)
  '(toolRow, h) ← createToolUsageExample h;
  let out := log out "3. Tool Usage:" in
  v ← isEvaluationRow h toolRow;
  s ← ToString h v;
  let out := log out ("   Valid: " +:+ s) in
  n ← lor (tools ← Get h toolRow "tools"; OptGet h tools "length")
          (Ok (VNum (num_of_nat 0)));
  b ← gt_num StringToNumber ObjectToNumber h n (num_of_nat 0);
  s ← ToString h (VBool b);
  let out := log out ("   Has Tools: " +:+ s) in
  messages ← Get h toolRow "messages";
  es ← array_receiver h messages;
  b ← some (λ m, tool_calls ← Get h m "tool_calls";
                 OptGet h tool_calls "length") es;
  s ← ToString h (VBool b);
  let out := log out ("   Tool Calls: " +:+ s) in
  let out := log out "" in
  (* Validation example *)
  let '(invalidData, h) :=
    object_literal [("messages", VStr "not an array")] h in
  validation ← validateEvaluationRow h invalidData;
  let out := log out "4. Validation Example:" in
  s ← ToString h (VBool (valid validation));
  let out := log out ("   Valid: " +:+ s) in
  let out := log out ("   Errors: " +:+ join ", " (errors validation)) in
  Ok (out, h).
End demonstrateUsage.

(** A conversion of numbers to strings that is right on the natural
    numbers, and one of objects to strings, to run [demonstrateUsage]. *)
Definition natural_to_string (n : number) : string :=
  match n with
  | Finite false m 0 => pretty m
  | _ => "NaN"
  end.

Definition object_to_string (h : heap) (l : loc) : outcome string :=
  Ok "[object Object]".

(** * Properties *)

Local Open Scope list_scope.

(** ** Numbers and basic operations *)

#[local] Arguments num_eqb : simpl never.
#[local] Arguments num_ltb : simpl never.
#[local] Arguments num_of_nat : simpl never.

Lemma num_eqb_of_nat_0 (n : nat) :
  num_eqb (num_of_nat n) (num_of_nat 0) = bool_decide (n = 0).
Proof.
  unfold num_eqb, num_of_nat, scaled, signed. cbn.
  case_bool_decide; [apply Z.eqb_eq|apply Z.eqb_neq]; lia.
Qed.

Lemma num_ltb_0_of_nat (n : nat) :
  num_ltb (num_of_nat 0) (num_of_nat n) = bool_decide (0 < n).
Proof.
  unfold num_ltb, num_of_nat, scaled, signed. cbn.
  case_bool_decide; [apply Z.ltb_lt|apply Z.ltb_ge]; lia.
Qed.

Lemma truthy_not_nullish v : ToBoolean v = true → nullish v = false.
Proof. by destruct v. Qed.

Lemma Get_not_nullish h v k : nullish v = false → returns (Get h v k).
Proof. destruct v; intros; try done; by eexists. Qed.

Lemma Get_ref h l k : Get h (VRef l) k = Ok (field h l k).
Proof. done. Qed.

Lemma index_get_elem k es : ∀ i,
  index_get k i es = VUndefined ∨ index_get k i es ∈ es.
Proof.
  induction es as [|e es IH]; intros i; simpl; [by left|].
  case_bool_decide; [right; left|].
  destruct (IH (S i)) as [->| ?]; [by left|right; by right].
Qed.

Lemma chars_strings s v : v ∈ chars s → ∃ c, v = VStr c.
Proof.
  induction s as [|a s IH]; simpl; [by intros ?%elem_of_nil|].
  intros [->|?]%elem_of_cons; eauto.
Qed.

(** Only an object or an array has a property that holds a reference. *)
Lemma Get_ref_inv h v k l : Get h v k = Ok (VRef l) → ∃ lv, v = VRef lv.
Proof.
  destruct v as [| |b|n|s|lv]; simpl; try done; [|by eauto].
  unfold string_get. case_bool_decide; [done|].
  intros [= E]. destruct (index_get_elem k (chars s) 0) as [E'|E'].
  - by rewrite E in E'.
  - rewrite E in E'. by apply chars_strings in E' as [c ?].
Qed.

Lemma IsArray_inv h v :
  IsArray h v = true → ∃ l es, v = VRef l ∧ h !! l = Some (OArray es).
Proof.
  destruct v as [| | | | |l]; try done. simpl.
  destruct (h !! l) as [[es|ps]|] eqn:E; try done. eauto.
Qed.

Lemma IsArray_ref h l es :
  h !! l = Some (OArray es) → IsArray h (VRef l) = true.
Proof. intros E. simpl. by rewrite E. Qed.

(** ** The validator *)

Lemma check_message_spec h msg i errs :
  check_message h msg i errs
  = Ok (errs ++ option_list (message_error h i msg)).
Proof.
  unfold check_message, message_error, push.
  destruct msg as [| |b|n|s|l]; simpl; try done.
  - by destruct b.
  - by destruct (negb _).
  - by case_bool_decide.
  - fold (field h l "role").
    destruct (field h l "role"); simpl; by rewrite ?app_nil_r.
Qed.

Lemma forEach_from_check h es : ∀ i errs,
  forEach_from (check_message h) i es errs
  = Ok (errs ++ omap id (imap (λ j, message_error h (i + j)) es)).
Proof.
  induction es as [|msg es IH]; intros i errs; simpl.
  - by rewrite app_nil_r.
  - rewrite check_message_spec. simpl. rewrite IH, <-app_assoc. do 2 f_equal.
    rewrite Nat.add_0_r.
    replace (imap ((λ j, message_error h (i + j)) ∘ S) es)
      with (imap (λ j, message_error h (S i + j)) es).
    2:{ apply imap_ext. intros j x _. simpl. f_equal. lia. }
    by destruct (message_error h i msg).
Qed.

Lemma validate_falsy h row :
  ToBoolean row = false →
  validateEvaluationRow h row
  = Ok (Report false ["EvaluationRow is null or undefined"]).
Proof. intros E. unfold validateEvaluationRow. by rewrite E. Qed.

Lemma validate_not_array h row messages :
  ToBoolean row = true →
  Get h row "messages" = Ok messages →
  IsArray h messages = false →
  validateEvaluationRow h row
  = Ok (Report false ["messages field is required and must be an array"]).
Proof.
  intros E G A. unfold validateEvaluationRow. rewrite E, G. simpl.
  by rewrite A.
Qed.

Lemma validate_array h row lm es :
  Get h row "messages" = Ok (VRef lm) →
  h !! lm = Some (OArray es) →
  validateEvaluationRow h row
  = Ok (if bool_decide (es = []) then
          Report false ["messages array cannot be empty"]
        else
          Report (bool_decide (message_errors h es = [])) (message_errors h es)).
Proof.
  intros G E.
  assert (ToBoolean row = true) as T.
  { by apply Get_ref_inv in G as [lv ->]. }
  unfold validateEvaluationRow. rewrite T, G. simpl. rewrite E. simpl.
  unfold field. rewrite E. unfold array_get.
  rewrite (bool_decide_eq_true_2 ("length" = "length")) by done.
  cbn [strict_eq]. rewrite num_eqb_of_nat_0.
  destruct es as [|msg es]; [done|].
  rewrite !bool_decide_eq_false_2 by done.
  unfold forEach. rewrite forEach_from_check.
  change (λ j, message_error h (0 + j)) with (message_error h).
  fold (message_errors h (msg :: es)). cbn [mbind outcome_bind app].
  rewrite num_eqb_of_nat_0.
  f_equal. f_equal. apply bool_decide_ext. split.
  - by intros ?%length_zero_iff_nil.
  - by intros ->.
Qed.

(** C7.  [validateEvaluationRow(null)] and [validateEvaluationRow(undefined)]
    return at once with [valid = false] and the single error "EvaluationRow
    is null or undefined"; a row without a [messages] property (such as [{}])
    gets "messages field is required and must be an array"; a row whose
    [messages] is the empty array gets exactly "messages array cannot be
    empty". *)
Theorem validate_null_missing_empty (h : heap) (l_obj l_row l_msgs : loc)
    (ps_obj ps_row : gmap string value)
    (Hobj : h !! l_obj = Some (OPlain ps_obj))
    (Hmissing : ps_obj !! "messages" = None)
    (Hrow : h !! l_row = Some (OPlain ps_row))
    (Hmessages : ps_row !! "messages" = Some (VRef l_msgs))
    (Hempty : h !! l_msgs = Some (OArray [])) :
  validateEvaluationRow h VNull
    = Ok (Report false ["EvaluationRow is null or undefined"])
  ∧ validateEvaluationRow h VUndefined
    = Ok (Report false ["EvaluationRow is null or undefined"])
  ∧ validateEvaluationRow h (VRef l_obj)
    = Ok (Report false ["messages field is required and must be an array"])
  ∧ validateEvaluationRow h (VRef l_row)
    = Ok (Report false ["messages array cannot be empty"]).
Proof.
  split_and!.
  - by apply validate_falsy.
  - by apply validate_falsy.
  - apply (validate_not_array _ _ VUndefined); [done| |done].
    rewrite Get_ref. unfold field. by rewrite Hobj, Hmissing.
  - rewrite (validate_array h _ l_msgs []); [done| |done].
    rewrite Get_ref. unfold field. by rewrite Hrow, Hmessages.
Qed.

Lemma validate_null_missing_empty_witness :
  validateEvaluationRow Examples.store VNull
    = Ok (Report false ["EvaluationRow is null or undefined"])
  ∧ validateEvaluationRow Examples.store VUndefined
    = Ok (Report false ["EvaluationRow is null or undefined"])
  ∧ validateEvaluationRow Examples.store (VRef 12)
    = Ok (Report false ["messages field is required and must be an array"])
  ∧ validateEvaluationRow Examples.store (VRef 13)
    = Ok (Report false ["messages array cannot be empty"]).
Proof.
  apply (validate_null_missing_empty Examples.store 12 13 14
           ∅ {["messages" := VRef 14]}); by vm_compute.
Defined.

(** C10.  A falsy input other than [null] and [undefined] (that is [false],
    the empty string, NaN, 0 or -0) is reported like the null case:
    [valid = false] and the single error "EvaluationRow is null or
    undefined", not an error about [messages]. *)
Theorem validate_falsy_as_null (h : heap) (row : value)
    (Hfalsy : ToBoolean row = false)
    (Hnot_null : nullish row = false) :
  validateEvaluationRow h row
  = Ok (Report false ["EvaluationRow is null or undefined"])
  ∧ (row = VBool false ∨ row = VStr "" ∨ row = VNum NaN
     ∨ ∃ neg e, row = VNum (Finite neg 0 e)).
Proof.
  split; [by apply validate_falsy|].
  destruct row as [| |b|n|s|l]; try done.
  - left. by destruct b.
  - do 2 right. destruct n as [|neg|neg m e]; [by left|done|right].
    cbn in Hfalsy. exists neg, e. f_equal.
    apply negb_false_iff, orb_prop in Hfalsy as [Hm|?]; [|done].
    apply bool_decide_eq_true in Hm. by subst m.
  - right. left. f_equal. cbn in Hfalsy.
    by apply negb_false_iff, bool_decide_eq_true in Hfalsy.
Qed.

Lemma validate_falsy_as_null_witness :
  Forall (λ row, validateEvaluationRow Examples.store row
                 = Ok (Report false ["EvaluationRow is null or undefined"]))
    [VNum (num_of_nat 0); VNum (Finite true 0 0); VNum NaN; VStr "";
     VBool false].
Proof.
  repeat (apply Forall_cons; split;
          [apply validate_falsy_as_null; reflexivity|]).
  apply Forall_nil_2.
Defined.

(** C6.  When [row.messages] is a non-empty array, the validator visits
    every element: the errors are, in ascending index order, "messages[i]
    must be an object" for each element that is not an object and
    "messages[i].role must be a string" for each object whose [role] is not a
    string, and nothing else; [valid] holds exactly when there is no
    error. *)
Theorem validate_checks_every_message (h : heap) (row : value) (lm : loc)
    (es : list value)
    (Hmessages : Get h row "messages" = Ok (VRef lm))
    (Harray : h !! lm = Some (OArray es))
    (Hnonempty : es ≠ []) :
  ∃ r, validateEvaluationRow h row = Ok r
    ∧ errors r = omap id (imap (message_error h) es)
    ∧ (∀ i msg, es !! i = Some msg → is_object msg = false →
         ("messages[" +:+ pretty i +:+ "] must be an object") ∈ errors r)
    ∧ (∀ i msg, es !! i = Some msg → is_object msg = true →
         has_string_role h msg = false →
         ("messages[" +:+ pretty i +:+ "].role must be a string") ∈ errors r)
    ∧ (valid r = true ↔ errors r = []).
Proof.
  eexists. split.
  { rewrite (validate_array h row lm es) by done.
    by rewrite bool_decide_eq_false_2. }
  simpl. split_and!.
  - done.
  - intros i msg Hi Hobj. apply list_elem_of_omap.
    exists (message_error h i msg). split; [|by unfold message_error; rewrite Hobj].
    by apply elem_of_lookup_imap_2.
  - intros i msg Hi Hobj Hrole. apply list_elem_of_omap.
    exists (message_error h i msg).
    split; [|by unfold message_error; rewrite Hobj, Hrole].
    by apply elem_of_lookup_imap_2.
  - apply bool_decide_eq_true.
Qed.

Lemma validate_checks_every_message_witness :
  ∃ r, validateEvaluationRow Examples.store (VRef 15) = Ok r
    ∧ errors r = ["messages[1].role must be a string"]
    ∧ valid r = false.
Proof.
  destruct (validate_checks_every_message Examples.store (VRef 15) 16
              [VRef 3; VRef 17]) as (r & Hr & Herr & _ & _ & Hvalid);
    [by vm_compute..|].
  exists r. split; [done|]. split; [by rewrite Herr|].
  destruct (valid r); [|done].
  destruct Hvalid as [Hv _]. rewrite Herr in Hv. by specialize (Hv eq_refl).
Defined.

(** ** The type guard *)

Lemma typeof_is_object v :
  ToBoolean v = true →
  strict_eq (VStr (typeof v)) (VStr "object") = is_object v.
Proof. destruct v; intros; try done; by vm_compute. Qed.

Lemma typeof_is_string v :
  strict_eq (VStr (typeof v)) (VStr "string")
  = match v with VStr _ => true | _ => false end.
Proof. destruct v; by vm_compute. Qed.

Lemma message_guard_spec h msg :
  ∃ v, message_guard h msg = Ok v ∧ ToBoolean v = message_ok h msg.
Proof.
  unfold message_guard, land, message_ok. cbn [mbind outcome_bind].
  destruct (ToBoolean msg) eqn:T.
  - rewrite typeof_is_object by done. cbn [ToBoolean].
    destruct msg as [| | | | |l]; try discriminate T;
      try (by exists (VBool false)).
    cbn [is_object]. rewrite Get_ref. cbn [mbind outcome_bind].
    rewrite typeof_is_string. eexists. split; [reflexivity|].
    reflexivity.
  - cbn [mbind outcome_bind]. rewrite T. exists msg. split; [done|].
    rewrite T. by destruct msg.
Qed.

Lemma every_message_guard h es :
  every (message_guard h) es = Ok (forallb (message_ok h) es).
Proof.
  induction es as [|msg es IH]; [done|].
  cbn [every forallb].
  destruct (message_guard_spec h msg) as (v & -> & <-).
  cbn [mbind outcome_bind]. by destruct (ToBoolean v).
Qed.

Lemma isEvaluationRow_falsy h obj :
  ToBoolean obj = false → isEvaluationRow h obj = Ok obj.
Proof.
  intros E. unfold isEvaluationRow, land.
  by repeat (cbn [mbind outcome_bind]; rewrite E).
Qed.

Lemma isEvaluationRow_not_array h obj messages :
  ToBoolean obj = true →
  Get h obj "messages" = Ok messages →
  IsArray h messages = false →
  isEvaluationRow h obj = Ok (VBool false).
Proof.
  intros T G A. unfold isEvaluationRow, land. cbn [mbind outcome_bind].
  rewrite T, typeof_is_object by done. cbn [mbind outcome_bind ToBoolean].
  destruct (is_object obj); [|done].
  rewrite G. cbn [mbind outcome_bind ToBoolean]. by rewrite A.
Qed.

Lemma isEvaluationRow_array h obj lm es :
  Get h obj "messages" = Ok (VRef lm) →
  h !! lm = Some (OArray es) →
  isEvaluationRow h obj = Ok (VBool (forallb (message_ok h) es)).
Proof.
  intros G E. destruct (Get_ref_inv _ _ _ _ G) as [l ->].
  unfold isEvaluationRow, land. cbn [mbind outcome_bind ToBoolean].
  rewrite typeof_is_object by done.
  cbn [mbind outcome_bind ToBoolean is_object].
  rewrite G. cbn [mbind outcome_bind ToBoolean].
  rewrite (IsArray_ref _ _ _ E). cbn [mbind outcome_bind ToBoolean].
  unfold array_receiver. rewrite E. cbn [mbind outcome_bind].
  by rewrite every_message_guard.
Qed.

Lemma message_errors_nil h es :
  message_errors h es = [] ↔ forallb (message_ok h) es = true.
Proof.
  unfold message_errors.
  assert (∀ f g : nat → value → option string,
    (∀ i x, f i x = None ↔ message_ok h x = true) →
    omap id (imap f es) = [] ↔ forallb (message_ok h) es = true) as help.
  { induction es as [|msg es IH]; intros f g Hf; [done|].
    rewrite imap_cons. cbn [omap list_omap forallb].
    specialize (Hf 0 msg) as Hmsg. specialize (IH (f ∘ S) (f ∘ S)).
    destruct (f 0 msg) as [e|] eqn:E; simpl.
    - split; [done|]. intros [H _]%andb_prop. by apply Hmsg in H.
    - rewrite (proj1 Hmsg eq_refl). simpl. apply IH. intros i x. apply Hf. }
  apply (help _ (message_error h)). intros i x.
  unfold message_error, message_ok.
  destruct (is_object x); simpl; [|done].
  by destruct (has_string_role h x).
Qed.

Lemma message_errors_not_empty_error h es :
  message_errors h es ≠ ["messages array cannot be empty"].
Proof.
  unfold message_errors. intros E.
  assert ("messages array cannot be empty" ∈ omap id (imap (message_error h) es))
    as (o & Ho & Heq)%list_elem_of_omap by (rewrite E; left).
  apply elem_of_lookup_imap_1 in Ho as (i & msg & -> & _).
  unfold message_error in Heq. simpl in Heq.
  destruct (negb (is_object msg)); [by simplify_eq/=|].
  destruct (negb (has_string_role h msg)); by simplify_eq/=.
Qed.

(** C2 (as amended).  The type guard and the validator agree except on the
    empty conversation: [isEvaluationRow(obj)] is [true] exactly when the
    validator reports no error or only "messages array cannot be empty", and
    that error is reported exactly when [obj.messages] is the empty array.
    So a row that the guard accepts and whose [messages] is not empty
    validates without error, and a row that validates without error is
    accepted by the guard. *)
Theorem guard_agrees_with_validator (h : heap) (obj : value) :
  ∃ r, validateEvaluationRow h obj = Ok r
    ∧ (valid r = true ↔ errors r = [])
    ∧ (isEvaluationRow h obj = Ok (VBool true)
       ↔ errors r = [] ∨ errors r = ["messages array cannot be empty"])
    ∧ (errors r = ["messages array cannot be empty"]
       ↔ ∃ lm, Get h obj "messages" = Ok (VRef lm)
               ∧ h !! lm = Some (OArray [])).
Proof.
  destruct (ToBoolean obj) eqn:T.
  2:{ eexists. split; [by apply validate_falsy|]. simpl.
      rewrite isEvaluationRow_falsy by done. split_and!.
      - done.
      - split; [intros [= ->]; done|intros [|]; done].
      - split; [done|]. intros (lm & [l ->]%Get_ref_inv & _). done. }
  destruct (Get_not_nullish h obj "messages") as [messages G];
    [by apply truthy_not_nullish|].
  destruct (IsArray h messages) eqn:A.
  2:{ eexists. split; [by eapply validate_not_array|]. simpl.
      rewrite (isEvaluationRow_not_array h obj messages) by done. split_and!.
      - done.
      - split; [done|intros [|]; done].
      - split; [done|]. intros (lm & G' & E). rewrite G in G'.
        injection G' as ->. by rewrite (IsArray_ref _ _ _ E) in A. }
  apply IsArray_inv in A as (lm & es & -> & E).
  eexists. split; [by eapply validate_array|].
  rewrite (isEvaluationRow_array h obj lm es) by done.
  destruct es as [|msg es].
  { simpl. split_and!.
    - done.
    - split; [by right|done].
    - split; [by eauto|done]. }
  rewrite bool_decide_eq_false_2 by done. cbn [errors valid].
  split_and!.
  - apply bool_decide_eq_true.
  - rewrite message_errors_nil. split.
    + intros [= H]. by left.
    + intros [H|H]; [by rewrite H|].
      by apply message_errors_not_empty_error in H.
  - split.
    + by intros ?%message_errors_not_empty_error.
    + intros (lm' & G' & E'). rewrite G in G'. injection G' as <-.
      rewrite E in E'. done.
Qed.

(** C2 as stated fails on [{ messages: [] }]: the guard accepts the row and
    the validator rejects it. *)
Lemma guard_accepts_empty_messages :
  isEvaluationRow Examples.store (VRef 13) = Ok (VBool true)
  ∧ validateEvaluationRow Examples.store (VRef 13)
    = Ok (Report false ["messages array cannot be empty"]).
Proof. split; by vm_compute. Qed.

(** ** Rows of the declared type *)

Lemma strict_eq_undefined v : strict_eq v VUndefined = true → v = VUndefined.
Proof. by destruct v. Qed.

Lemma conforms_interface h fs v :
  conforms h (TInterface fs) v = true →
  ∃ l, v = VRef l
    ∧ Forall (λ f, (f.2.1 = true ∧ field h l f.1 = VUndefined)
                   ∨ conforms h f.2.2 (field h l f.1) = true) fs.
Proof.
  destruct v as [| | | | |l]; try done. intros H. exists l. split; [done|].
  cbn [conforms] in H.
  induction fs as [|[name [opt t]] fs IH]; [constructor|].
  apply andb_prop in H as [H1 H2]. constructor; [|by apply IH].
  cbn [fst snd]. apply orb_prop in H1 as [[-> ?%strict_eq_undefined]%andb_prop|?];
    by eauto.
Qed.

Lemma conforms_array h t v :
  conforms h (TArray t) v = true →
  ∃ l es, v = VRef l ∧ h !! l = Some (OArray es)
    ∧ Forall (λ e, conforms h t e = true) es.
Proof.
  destruct v as [| | | | |l]; try done. cbn [conforms].
  destruct (h !! l) as [[es|ps]|] eqn:E; try done.
  intros H. exists l, es. split_and!; [done..|].
  apply Forall_forall. intros e He. rewrite forallb_forall in H.
  by apply H, list_elem_of_In.
Qed.

Lemma conforms_row_shape h row :
  conforms h EvaluationRow row = true → row_shape h row.
Proof.
  intros (l & -> & Hfields)%conforms_interface.
  unfold required, optional in Hfields.
  repeat match type of Hfields with
         | Forall _ (_ :: _) =>
             apply Forall_cons in Hfields as [? Hfields]
         end.
  cbn [fst snd] in *. split.
  - destruct H as [[? _]|(lm & es & E & Hlm & Hes)%conforms_array]; [done|].
    exists lm, es. rewrite Get_ref. split_and!; [by f_equal|done|].
    eapply Forall_impl; [done|].
    by intros msg (lmsg & -> & _)%conforms_interface.
  - rewrite Get_ref.
    destruct H3 as [[_ ->]|(le & E & Hle)%conforms_interface]; [by left|].
    right. exists le. split; [by f_equal|].
    unfold required, optional in Hle.
    do 4 apply Forall_cons in Hle as [_ Hle].
    apply Forall_cons in Hle as [Hso _]. cbn [fst snd] in Hso.
    destruct Hso as [[_ ->]|(ls & steps & E' & Hls & _)%conforms_array];
      [by left|].
    right. by exists ls, steps.
Qed.

(** ** The accessors *)

Lemma strict_eq_str v r : strict_eq v (VStr r) = true ↔ v = VStr r.
Proof.
  destruct v; simpl; try done. rewrite bool_decide_eq_true. naive_solver.
Qed.

Lemma role_is_spec h r msg :
  nullish msg = false →
  role_is h r msg = Ok (VBool (has_role h r msg)).
Proof.
  intros [role G]%(Get_not_nullish h _ "role").
  unfold role_is, has_role. rewrite G. cbn [mbind outcome_bind].
  do 2 f_equal. apply eq_true_iff_eq.
  rewrite strict_eq_str, bool_decide_eq_true. naive_solver.
Qed.

Lemma filter_elems_role h r es :
  Forall (λ msg, nullish msg = false) es →
  filter_elems (role_is h r) es = Ok (filter (has_role h r) es).
Proof.
  induction 1 as [|msg es Hmsg _ IH]; [done|].
  cbn [filter_elems]. rewrite role_is_spec, IH by done.
  cbn [mbind outcome_bind ToBoolean]. rewrite filter_cons.
  by destruct (has_role h r msg).
Qed.

Lemma is_object_not_nullish v : is_object v = true → nullish v = false.
Proof. by destruct v. Qed.

Lemma alloc_fresh h o : ∃ l, alloc h o = (VRef l, <[l := o]> h) ∧ l ∉ dom h.
Proof. exists (fresh (dom h)). split; [done|apply is_fresh]. Qed.

Lemma alloc_subseteq h o v h' : alloc h o = (v, h') → h ⊆ h'.
Proof.
  intros [= <- <-]. apply insert_subseteq, not_elem_of_dom, is_fresh.
Qed.

Lemma OptGet_returns h v k : returns (OptGet h v k).
Proof.
  unfold OptGet. destruct (nullish v) eqn:E; [by eexists|].
  by apply Get_not_nullish.
Qed.

Lemma createEvaluationRow_returns h messages options :
  returns (createEvaluationRow h messages options).
Proof.
  unfold createEvaluationRow.
  destruct (OptGet_returns h options "tools") as [? ->].
  destruct (OptGet_returns h options "inputMetadata") as [? ->].
  destruct (OptGet_returns h options "groundTruth") as [? ->].
  destruct (OptGet_returns h options "evaluationResult") as [? ->].
  by eexists.
Qed.

(** The three cases of the validator. *)
Lemma validate_cases h v :
  ∃ r, validateEvaluationRow h v = Ok r ∧ (valid r = true ↔ errors r = []).
Proof.
  destruct (ToBoolean v) eqn:T.
  2:{ eexists. split; [by apply validate_falsy|done]. }
  destruct (Get_not_nullish h v "messages") as [messages G];
    [by apply truthy_not_nullish|].
  destruct (IsArray h messages) eqn:A.
  2:{ eexists. split; [by eapply validate_not_array|done]. }
  apply IsArray_inv in A as (lm & es & -> & E).
  eexists. split; [by eapply validate_array|].
  case_bool_decide; [done|]. apply bool_decide_eq_true.
Qed.

Lemma isEvaluationRow_cases h v :
  ∃ r, isEvaluationRow h v = Ok r ∧ (r = VBool true ∨ ToBoolean r = false).
Proof.
  destruct (ToBoolean v) eqn:T.
  2:{ exists v. split; [by apply isEvaluationRow_falsy|by right]. }
  destruct (Get_not_nullish h v "messages") as [messages G];
    [by apply truthy_not_nullish|].
  destruct (IsArray h messages) eqn:A.
  2:{ eexists. split; [by eapply isEvaluationRow_not_array|by right]. }
  apply IsArray_inv in A as (lm & es & -> & E).
  eexists. split; [by eapply isEvaluationRow_array|].
  destruct (forallb _ _); [by left|by right].
Qed.

Section trajectory.
Context (StringToNumber : string → number).
Context (ObjectToNumber : heap → loc → outcome number).

#[local] Abbreviation isTrajectoryEvaluation :=
  (isTrajectoryEvaluation StringToNumber ObjectToNumber).

Lemma isTrajectoryEvaluation_unevaluated h row :
  Get h row "evaluation_result" = Ok VUndefined →
  isTrajectoryEvaluation h row = Ok (VBool false).
Proof.
  intros G. unfold isTrajectoryEvaluation, land. by rewrite G.
Qed.

Lemma isTrajectoryEvaluation_no_steps h row le :
  Get h row "evaluation_result" = Ok (VRef le) →
  field h le "step_outputs" = VUndefined →
  isTrajectoryEvaluation h row = Ok (VBool false).
Proof.
  intros G E. unfold isTrajectoryEvaluation, land. rewrite G.
  cbn [mbind outcome_bind strict_eq negb ToBoolean]. rewrite Get_ref, E.
  done.
Qed.

Lemma isTrajectoryEvaluation_steps h row le ls steps :
  Get h row "evaluation_result" = Ok (VRef le) →
  field h le "step_outputs" = VRef ls →
  h !! ls = Some (OArray steps) →
  isTrajectoryEvaluation h row = Ok (VBool (bool_decide (0 < length steps))).
Proof.
  intros G E Hls. unfold isTrajectoryEvaluation, land. rewrite G.
  cbn [mbind outcome_bind strict_eq negb ToBoolean]. rewrite Get_ref, E.
  cbn [mbind outcome_bind strict_eq negb ToBoolean].
  rewrite Get_ref. unfold field at 1. rewrite Hls.
  unfold array_get. rewrite bool_decide_eq_true_2 by done.
  unfold gt_num. cbn [ToNumber mbind outcome_bind].
  by rewrite num_ltb_0_of_nat.
Qed.
End trajectory.

(** C1 (as amended).  [validateEvaluationRow], [isEvaluationRow] and
    [createEvaluationRow] return normally on every input; the validator
    reports a malformed value through its error list ([valid] is true exactly
    when the list is empty) and the guard through a result that is not truthy
    ([false], or the input itself when the input is falsy).  The accessors
    [isTrajectoryEvaluation], [getAssistantMessages], [getUserMessages],
    [getConversationLength] and [getInputMetadata] return normally on every
    row of the declared type [EvaluationRow]. *)
Theorem helpers_return_normally
    (StringToNumber : string → number)
    (ObjectToNumber : heap → loc → outcome number)
    (h : heap) :
  (∀ v, ∃ r, validateEvaluationRow h v = Ok r
             ∧ (valid r = true ↔ errors r = []))
  ∧ (∀ v, ∃ r, isEvaluationRow h v = Ok r
               ∧ (r = VBool true ∨ ToBoolean r = false))
  ∧ (∀ messages options, returns (createEvaluationRow h messages options))
  ∧ (∀ row, conforms h EvaluationRow row = true →
       returns (isTrajectoryEvaluation StringToNumber ObjectToNumber h row)
       ∧ returns (getAssistantMessages h row)
       ∧ returns (getUserMessages h row)
       ∧ returns (getConversationLength h row)
       ∧ ∀ key defaultValue,
           returns (getInputMetadata h row key defaultValue)).
Proof.
  split_and!.
  - apply validate_cases.
  - apply isEvaluationRow_cases.
  - apply createEvaluationRow_returns.
  - intros row [(lm & es & G & E & Hes) Her]%conforms_row_shape.
    assert (Forall (λ msg, nullish msg = false) es) as Hes'.
    { eapply Forall_impl; [done|]. apply is_object_not_nullish. }
    split_and!.
    + destruct Her as [Her|(le & Her & [Hso|(ls & steps & Hso & Hls)])].
      * eexists. by apply isTrajectoryEvaluation_unevaluated.
      * eexists. by eapply isTrajectoryEvaluation_no_steps.
      * eexists. by eapply isTrajectoryEvaluation_steps.
    + unfold getAssistantMessages. rewrite G. cbn [mbind outcome_bind].
      unfold array_receiver. rewrite E. cbn [mbind outcome_bind].
      rewrite filter_elems_role by done. by eexists.
    + unfold getUserMessages. rewrite G. cbn [mbind outcome_bind].
      unfold array_receiver. rewrite E. cbn [mbind outcome_bind].
      rewrite filter_elems_role by done. by eexists.
    + unfold getConversationLength. rewrite G. by eexists.
    + intros key d. unfold getInputMetadata.
      destruct (Get_ref_inv _ _ _ _ G) as [l ->]. rewrite Get_ref.
      cbn [mbind outcome_bind].
      destruct (OptGet_returns h (field h l "input_metadata") key) as [v ->].
      by eexists.
Qed.

Lemma helpers_return_normally_witness :
  returns (validateEvaluationRow Examples.store (VRef 21))
  ∧ returns (isEvaluationRow Examples.store VNull)
  ∧ returns (isTrajectoryEvaluation Examples.StringToNumber
               Examples.ObjectToNumber Examples.store (VRef 1))
  ∧ returns (getAssistantMessages Examples.store (VRef 1))
  ∧ returns (getUserMessages Examples.store (VRef 1))
  ∧ returns (getConversationLength Examples.store (VRef 1))
  ∧ returns (getInputMetadata Examples.store (VRef 1) "model" VUndefined).
Proof.
  destruct (helpers_return_normally Examples.StringToNumber
              Examples.ObjectToNumber Examples.store)
    as (Hvalidate & Hguard & _ & Haccessors).
  destruct (Haccessors (VRef 1)) as (H1 & H2 & H3 & H4 & H5);
    [by vm_compute|].
  destruct (Hvalidate (VRef 21)) as (r & Hr & _).
  destruct (Hguard VNull) as (g & Hg & _).
  split_and!; [by exists r|by exists g|done..|apply H5].
Defined.

(** C1 as stated fails: outside the declared type the accessors raise a
    TypeError, for instance on [null], on [{}] (no [messages]), on
    [{ messages: [null] }] and on a row whose [evaluation_result] is
    [null]. *)
Lemma accessors_throw_on_malformed_rows :
  isTrajectoryEvaluation Examples.StringToNumber Examples.ObjectToNumber
    Examples.store VNull = Throw TypeError
  ∧ isTrajectoryEvaluation Examples.StringToNumber Examples.ObjectToNumber
      Examples.store (VRef 20) = Throw TypeError
  ∧ getAssistantMessages Examples.store VNull = Throw TypeError
  ∧ getAssistantMessages Examples.store (VRef 21) = Throw TypeError
  ∧ getUserMessages Examples.store (VRef 12) = Throw TypeError
  ∧ getConversationLength Examples.store VUndefined = Throw TypeError
  ∧ getConversationLength Examples.store (VRef 12) = Throw TypeError
  ∧ getInputMetadata Examples.store VNull "model" (VStr "unknown")
    = Throw TypeError.
Proof. split_and!; by vm_compute. Qed.

(** C5.  For a row of type [EvaluationRow], [isTrajectoryEvaluation(row)]
    is [true] exactly when [evaluation_result] is present, its
    [step_outputs] is present and that array is not empty; it is [false]
    when [evaluation_result] is absent, when [step_outputs] is absent and
    when [step_outputs] is empty. *)
Theorem isTrajectoryEvaluation_iff
    (StringToNumber : string → number)
    (ObjectToNumber : heap → loc → outcome number)
    (h : heap) (row : value)
    (Htyped : conforms h EvaluationRow row = true) :
  ∃ b, isTrajectoryEvaluation StringToNumber ObjectToNumber h row
       = Ok (VBool b)
    ∧ (b = true ↔
       ∃ le ls steps,
         Get h row "evaluation_result" = Ok (VRef le)
         ∧ Get h (VRef le) "step_outputs" = Ok (VRef ls)
         ∧ h !! ls = Some (OArray steps)
         ∧ 0 < length steps)
    ∧ (Get h row "evaluation_result" = Ok VUndefined → b = false)
    ∧ (∀ le, Get h row "evaluation_result" = Ok (VRef le) →
         Get h (VRef le) "step_outputs" = Ok VUndefined → b = false)
    ∧ (∀ le ls, Get h row "evaluation_result" = Ok (VRef le) →
         Get h (VRef le) "step_outputs" = Ok (VRef ls) →
         h !! ls = Some (OArray []) → b = false).
Proof.
  apply conforms_row_shape in Htyped as [_ Her].
  destruct Her as [Her|(le & Her & [Hso|(ls & steps & Hso & Hls)])].
  - exists false.
    split; [by apply isTrajectoryEvaluation_unevaluated|].
    split_and!; try done.
    split; [done|]. intros (? & ? & ? & ? & _). congruence.
  - exists false.
    split; [by eapply isTrajectoryEvaluation_no_steps|].
    split_and!; try done.
    split; [done|]. intros (le' & ? & ? & Her' & Hso' & _).
    rewrite Her in Her'. injection Her' as <-.
    rewrite Get_ref, Hso in Hso'. done.
  - exists (bool_decide (0 < length steps)).
    split; [by eapply isTrajectoryEvaluation_steps|].
    split_and!.
    + rewrite bool_decide_eq_true. split.
      * intros Hlen. exists le, ls, steps. by rewrite Get_ref, Hso.
      * intros (le' & ls' & steps' & Her' & Hso' & Hls' & Hlen).
        rewrite Her in Her'. injection Her' as <-.
        rewrite Get_ref, Hso in Hso'. injection Hso' as <-.
        rewrite Hls in Hls'. by injection Hls' as <-.
    + intros Her'. congruence.
    + intros le' Her' Hso'. rewrite Her in Her'. injection Her' as <-.
      rewrite Get_ref, Hso in Hso'. done.
    + intros le' ls' Her' Hso' Hls'. rewrite Her in Her'. injection Her' as <-.
      rewrite Get_ref, Hso in Hso'. injection Hso' as <-.
      rewrite Hls in Hls'. by injection Hls' as ->.
Qed.

Lemma isTrajectoryEvaluation_iff_witness :
  isTrajectoryEvaluation Examples.StringToNumber Examples.ObjectToNumber
    Examples.store (VRef 1) = Ok (VBool true).
Proof.
  destruct (isTrajectoryEvaluation_iff Examples.StringToNumber
              Examples.ObjectToNumber Examples.store (VRef 1))
    as (b & Hb & Hiff & _); [by vm_compute|].
  rewrite Hb. do 2 f_equal. apply Hiff.
  exists 8%positive, 9%positive, [VRef 10; VRef 11].
  split_and!; [by vm_compute..|simpl; lia].
Defined.

(** C8.  When [row.messages] is an array without [null] or [undefined]
    elements (as in every row of type [EvaluationRow]),
    [getAssistantMessages(row)] returns a new array holding exactly the
    messages whose [role] is "assistant", in their original order, and
    [getUserMessages(row)] likewise for "user"; no message is in both
    results, and every object of the store, the row and its messages
    included, is left as it was. *)
Theorem filters_select_by_role (h : heap) (row : value) (lm : loc)
    (es : list value)
    (Hmessages : Get h row "messages" = Ok (VRef lm))
    (Harray : h !! lm = Some (OArray es))
    (Helems : Forall (λ msg, nullish msg = false) es) :
  ∃ la lu h_a h_u assistants users,
    getAssistantMessages h row = Ok (VRef la, h_a)
    ∧ getUserMessages h row = Ok (VRef lu, h_u)
    ∧ h_a !! la = Some (OArray assistants)
    ∧ h_u !! lu = Some (OArray users)
    ∧ assistants = filter (has_role h "assistant") es
    ∧ users = filter (has_role h "user") es
    ∧ sublist assistants es ∧ sublist users es
    ∧ (∀ msg, msg ∈ assistants → msg ∉ users)
    ∧ (la ∉ dom h) ∧ (lu ∉ dom h)
    ∧ (h ⊆ h_a) ∧ (h ⊆ h_u).
Proof.
  destruct (alloc_fresh h (OArray (filter (has_role h "assistant") es)))
    as (la & Ha & Hla).
  destruct (alloc_fresh h (OArray (filter (has_role h "user") es)))
    as (lu & Hu & Hlu).
  exists la, lu. do 2 eexists. exists (filter (has_role h "assistant") es),
    (filter (has_role h "user") es).
  split_and!.
  - unfold getAssistantMessages. rewrite Hmessages. cbn [mbind outcome_bind].
    unfold array_receiver. rewrite Harray. cbn [mbind outcome_bind].
    rewrite filter_elems_role by done. cbn [mbind outcome_bind].
    by rewrite Ha.
  - unfold getUserMessages. rewrite Hmessages. cbn [mbind outcome_bind].
    unfold array_receiver. rewrite Harray. cbn [mbind outcome_bind].
    rewrite filter_elems_role by done. cbn [mbind outcome_bind].
    by rewrite Hu.
  - apply lookup_insert_eq.
  - apply lookup_insert_eq.
  - done.
  - done.
  - apply sublist_filter.
  - apply sublist_filter.
  - intros msg [Hra _]%list_elem_of_filter [Hru _]%list_elem_of_filter.
    unfold has_role in *.
    apply Is_true_true, bool_decide_eq_true in Hra.
    apply Is_true_true, bool_decide_eq_true in Hru. congruence.
  - done.
  - done.
  - by apply insert_subseteq, not_elem_of_dom.
  - by apply insert_subseteq, not_elem_of_dom.
Qed.

Lemma filters_select_by_role_witness :
  ∃ la lu h_a h_u,
    getAssistantMessages Examples.store (VRef 1) = Ok (VRef la, h_a)
    ∧ getUserMessages Examples.store (VRef 1) = Ok (VRef lu, h_u)
    ∧ h_a !! la = Some (OArray [VRef 4; VRef 6])
    ∧ h_u !! lu = Some (OArray [VRef 3; VRef 5]).
Proof.
  destruct (filters_select_by_role Examples.store (VRef 1) 2
              [VRef 3; VRef 4; VRef 5; VRef 6])
    as (la & lu & h_a & h_u & assistants & users
        & Ha & Hu & Hla & Hlu & Hassistants & Husers & _);
    [by vm_compute| by vm_compute| by repeat constructor|].
  vm_compute in Hassistants, Husers. subst assistants users.
  exists la, lu, h_a, h_u. split_and!; assumption.
Defined.

(** ** The constructor *)

Lemma row_literal_members (m a b c d : value) :
  map_to_list (<["evaluation_result" := d]>
               (<["ground_truth" := c]>
               (<["input_metadata" := b]>
               (<["tools" := a]>
               (<["messages" := m]> (∅ : gmap string value))))))
  = [("ground_truth", c); ("messages", m); ("evaluation_result", d);
     ("input_metadata", b); ("tools", a)].
Proof. by vm_compute. Qed.

Lemma serialize_undefined fuel h stack :
  SerializeJSONProperty fuel h stack VUndefined = Some (Ok None).
Proof. by destruct fuel. Qed.

(** C3 (as amended).  [createEvaluationRow(messages)] without [options]
    returns a new object with exactly five own properties: [messages] holds
    the given value itself, and [tools], [input_metadata], [ground_truth]
    and [evaluation_result] are present and hold [undefined] (not [null], not
    an empty container), so that reading them gives [undefined];
    [JSON.stringify] leaves these four properties out. *)
Theorem createEvaluationRow_without_options (h : heap) (messages : value) :
  ∃ l h' ps,
    createEvaluationRow h messages VUndefined = Ok (VRef l, h')
    ∧ (l ∉ dom h) ∧ (h ⊆ h')
    ∧ h' !! l = Some (OPlain ps)
    ∧ dom ps = list_to_set ["messages"; "tools"; "input_metadata";
                            "ground_truth"; "evaluation_result"]
    ∧ ps !! "messages" = Some messages
    ∧ Forall (λ k, ps !! k = Some VUndefined
                   ∧ Get h' (VRef l) k = Ok VUndefined)
        ["tools"; "input_metadata"; "ground_truth"; "evaluation_result"]
    ∧ (∀ j, SerializeJSONProperty (size h) h' [l] messages = Some (Ok (Some j)) →
            stringify h' (VRef l) = Some (Ok (Some (JObj [("messages", j)])))).
Proof.
  unfold createEvaluationRow. cbn [OptGet nullish mbind outcome_bind].
  match goal with
  | |- context [alloc h ?o] =>
      destruct (alloc_fresh h o) as (l & -> & Hl)
  end.
  do 3 eexists. split; [done|]. split; [done|].
  split; [by apply insert_subseteq, not_elem_of_dom|].
  split; [apply lookup_insert_eq|].
  split; [rewrite !dom_insert_L, dom_empty_L; set_solver|].
  split; [by vm_compute|].
  split.
  - assert (∀ k ps, ps !! k = Some VUndefined →
              ps !! k = Some VUndefined
              ∧ Get (<[l := OPlain ps]> h) (VRef l) k = Ok VUndefined) as help.
    { intros k ps Hk. split; [done|]. rewrite Get_ref. unfold field.
      by rewrite lookup_insert_eq, Hk. }
    repeat (apply Forall_cons; split; [apply help; by vm_compute|]).
    apply Forall_nil_2.
  - intros j Hj. unfold stringify.
    rewrite map_size_insert_None by by apply not_elem_of_dom.
    cbn [SerializeJSONProperty]. rewrite bool_decide_eq_false_2 by set_solver.
    rewrite lookup_insert_eq, row_literal_members.
    cbn [ser_members]. by rewrite !serialize_undefined, Hj.
Qed.

(** C3 as stated fails: in the row made without options, [tools] is an own
    property that holds [undefined], not an absent one. *)
Lemma createEvaluationRow_defines_tools :
  ∃ row h', createEvaluationRow Examples.store (VRef 2) VUndefined
            = Ok (row, h')
    ∧ own_property h' row "tools" = Some VUndefined.
Proof. do 2 eexists. split; [reflexivity|]. by vm_compute. Qed.

(** ** Metadata lookup *)




(** ** Property names and array indices *)

Lemma pretty_N_char_digit x s : digit_head (String (pretty_N_char x) s) = true.
Proof.
  unfold pretty_N_char. by repeat case_match.
Qed.

Lemma pretty_N_go_digit_head x s :
  digit_head s = true → digit_head (pretty_N_go x s) = true.
Proof.
  revert s. induction (N.lt_wf_0 x) as [x _ IH]; intros s Hs.
  assert (x = 0 ∨ 0 < x)%N as [->|?] by lia.
  - by rewrite pretty_N_go_0.
  - rewrite pretty_N_go_step by done. apply IH.
    + by apply N.div_lt.
    + apply pretty_N_char_digit.
Qed.

Lemma pretty_nat_digit_head (n : nat) : digit_head (pretty n) = true.
Proof.
  unfold pretty, pretty_nat, pretty, pretty_N. case_decide; [done|].
  destruct (N.of_nat n) as [|p] eqn:E; [done|].
  rewrite pretty_N_go_step by lia. apply pretty_N_go_digit_head.
  apply pretty_N_char_digit.
Qed.

(** A property whose name does not start with a digit is not an element. *)
Lemma index_get_not_index k es :
  digit_head k = false → ∀ i, index_get k i es = VUndefined.
Proof.
  intros Hk. induction es as [|e es IH]; intros i; [done|].
  cbn [index_get]. rewrite bool_decide_eq_false_2; [apply IH|].
  intros ->. by rewrite pretty_nat_digit_head in Hk.
Qed.

(** ** What the validator reads *)

(** The report depends on the row only through its view. *)
Lemma validate_view h row :
  validateEvaluationRow h row = Ok (view_report (row_view h row)).
Proof.
  unfold row_view. destruct (ToBoolean row) eqn:T.
  2:{ by apply validate_falsy. }
  destruct (Get_not_nullish h row "messages") as [messages G];
    [by apply truthy_not_nullish|].
  rewrite G. destruct (IsArray h messages) eqn:A.
  - apply IsArray_inv in A as (lm & es & -> & E).
    rewrite (validate_array h row lm es) by done.
    cbn [messages_view]. rewrite E. cbn [view_report].
    unfold message_errors. rewrite imap_fmap.
    destruct es as [|msg es]; [done|].
    by rewrite !bool_decide_eq_false_2 by done.
  - rewrite (validate_not_array h row messages) by done.
    destruct messages as [| | | | |lm]; try done. cbn in *.
    by destruct (h !! lm) as [[es|ps]|].
Qed.

Lemma field_not_index h l k :
  digit_head k = false → k ≠ "length" →
  field h l k = match h !! l with
                | Some (OPlain ps) => default VUndefined (ps !! k)
                | _ => VUndefined
                end.
Proof.
  intros Hk Hlen. unfold field. destruct (h !! l) as [[es|ps]|]; try done.
  unfold array_get. rewrite bool_decide_eq_false_2 by done.
  by apply index_get_not_index.
Qed.

Lemma string_get_not_ref s k l : string_get s k ≠ VRef l.
Proof.
  intros E. destruct (Get_ref_inv ∅ (VStr s) k l) as [? ?]; [|done].
  cbn. by f_equal.
Qed.

(** ** Serialisation keeps the view *)

Lemma ser_elems_Forall2 ser es js :
  ser_elems ser es = Some (Ok js) →
  Forall2 (λ e j, ∃ r, ser e = Some (Ok r) ∧ j = default JNull r) es js.
Proof.
  revert js. induction es as [|e es IH]; intros js.
  - intros [= <-]. constructor.
  - cbn [ser_elems]. destruct (ser e) as [[r|]|] eqn:E; try done.
    destruct (ser_elems ser es) as [[js'|]|]; try done.
    intros [= <-]. constructor; [by eauto|by apply IH].
Qed.

Lemma ser_members_member ser kvs ms k :
  ser_members ser kvs = Some (Ok ms) → NoDup kvs.*1 →
  (∀ e, (k, e) ∈ kvs → ∃ r, ser e = Some (Ok r) ∧ member k ms = r)
  ∧ (k ∉ kvs.*1 → member k ms = None).
Proof.
  revert ms. induction kvs as [|[k' e'] kvs IH]; intros ms.
  - intros [= <-] _. split; [by intros e ?%elem_of_nil|done].
  - cbn [ser_members]. destruct (ser e') as [[r'|]|] eqn:E'; try done.
    destruct (ser_members ser kvs) as [[ms'|]|]; try done.
    intros [= <-] [Hk' Hnd]%NoDup_cons.
    destruct (IH ms' eq_refl Hnd) as [IH1 IH2]. split.
    + intros e [[= -> ->]|Hin]%elem_of_cons.
      * exists r'. split; [done|]. specialize (IH2 Hk').
        destruct r' as [j|]; [|done]. cbn [member]. rewrite IH2.
        by rewrite bool_decide_eq_true_2.
      * destruct (IH1 e Hin) as (r & Hr & Hm). exists r. split; [done|].
        destruct r' as [j|]; [|done]. cbn [member]. rewrite Hm.
        destruct r; [done|]. rewrite bool_decide_eq_false_2; [done|].
        intros ->. apply Hk', list_elem_of_fmap. by exists (k, e).
    + intros [Hne Hk]%not_elem_of_cons. specialize (IH2 Hk).
      destruct r' as [j|]; [|done]. cbn [member]. rewrite IH2.
      by rewrite bool_decide_eq_false_2.
Qed.

Lemma serialize_primitive fuel h stack v :
  is_object v = false →
  SerializeJSONProperty fuel h stack v
  = Some (Ok match v with
             | VUndefined => None
             | VNull => Some JNull
             | VBool b => Some (JBool b)
             | VNum n => Some (ser_number n)
             | VStr s => Some (JStr s)
             | VRef _ => None
             end).
Proof. destruct v; try done; by destruct fuel. Qed.

Lemma serialize_ref fuel h stack l r :
  SerializeJSONProperty fuel h stack (VRef l) = Some (Ok r) →
  match h !! l with
  | None => r = Some (JObj [])
  | Some (OArray es) =>
      ∃ fuel' js, fuel = S fuel' ∧ r = Some (JArr js)
        ∧ ser_elems (SerializeJSONProperty fuel' h (l :: stack)) es
          = Some (Ok js)
  | Some (OPlain ps) =>
      ∃ fuel' ms, fuel = S fuel' ∧ r = Some (JObj ms)
        ∧ ser_members (SerializeJSONProperty fuel' h (l :: stack))
            (map_to_list ps) = Some (Ok ms)
  end.
Proof.
  intros Hser.
  assert ((if bool_decide (l ∈ stack) then Some (Throw TypeError)
           else match h !! l with
                | None => Some (Ok (Some (JObj [])))
                | Some o =>
                    match fuel with
                    | 0 => None
                    | S fuel' =>
                        let ser := SerializeJSONProperty fuel' h (l :: stack) in
                        match o with
                        | OArray es =>
                            match ser_elems ser es with
                            | None => None
                            | Some (Throw x) => Some (Throw x)
                            | Some (Ok js) => Some (Ok (Some (JArr js)))
                            end
                        | OPlain ps =>
                            match ser_members ser (map_to_list ps) with
                            | None => None
                            | Some (Throw x) => Some (Throw x)
                            | Some (Ok ms) => Some (Ok (Some (JObj ms)))
                            end
                        end
                    end
                end) = Some (Ok r)) as H.
  { rewrite <-Hser. by destruct fuel. }
  clear Hser. case_bool_decide; [done|].
  destruct (h !! l) as [[es|ps]|]; [| |by simplify_eq].
  - destruct fuel as [|fuel']; [done|]. cbn zeta in H.
    destruct (ser_elems _ es) as [[js|]|] eqn:E; try done. simplify_eq.
    by exists fuel', js.
  - destruct fuel as [|fuel']; [done|]. cbn zeta in H.
    destruct (ser_members _ _) as [[ms|]|] eqn:E; try done. simplify_eq.
    by exists fuel', ms.
Qed.

Lemma serialize_none_inv fuel h stack v :
  SerializeJSONProperty fuel h stack v = Some (Ok None) → v = VUndefined.
Proof.
  destruct v as [| | | | |l]; [done|by destruct fuel..|].
  intros H%serialize_ref. destruct (h !! l) as [[es|ps]|]; [| |done].
  - by destruct H as (? & ? & _ & ? & _).
  - by destruct H as (? & ? & _ & ? & _).
Qed.

Lemma ser_number_not_string n s : ser_number n ≠ JStr s.
Proof. destruct n; try done. cbn. by case_bool_decide. Qed.

Lemma serialize_string_inv fuel h stack v s :
  SerializeJSONProperty fuel h stack v = Some (Ok (Some (JStr s))) →
  v = VStr s.
Proof.
  destruct v as [| |b|n|s'|l].
  - by destruct fuel.
  - by destruct fuel.
  - by destruct fuel.
  - rewrite serialize_primitive by done. intros [= H].
    by apply ser_number_not_string in H.
  - rewrite serialize_primitive by done. by intros [= ->].
  - intros H%serialize_ref. destruct (h !! l) as [[es|ps]|]; [| |done].
    + by destruct H as (? & ? & _ & ? & _).
    + by destruct H as (? & ? & _ & ? & _).
Qed.

(** An element and its serialisation are of the same kind. *)
Lemma serialize_kind fuel h stack e r :
  SerializeJSONProperty fuel h stack e = Some (Ok r) →
  json_kind (default JNull r) = message_kind h e.
Proof.
  destruct (is_object e) eqn:Hobj.
  2:{ rewrite serialize_primitive by done. intros [= <-].
      destruct e as [| | |n| |]; try done. destruct n; try done.
      cbn. by case_bool_decide. }
  destruct e as [| | | | |l]; try done. intros H%serialize_ref.
  unfold message_kind. cbn [is_object has_string_role].
  rewrite field_not_index by done.
  destruct (h !! l) as [[es|ps]|] eqn:E.
  - by destruct H as (fuel' & js & -> & -> & _).
  - destruct H as (fuel' & ms & -> & -> & Hms). simpl. f_equal.
    destruct (ser_members_member _ _ _ "role" Hms (NoDup_fst_map_to_list ps))
      as [Hin Hout].
    destruct (ps !! "role") as [vr|] eqn:Hrole.
    + apply elem_of_map_to_list in Hrole.
      destruct (Hin _ Hrole) as (r & Hr & Hm). rewrite Hm.
      assert (∀ s, vr = VStr s → r = Some (JStr s)) as Hstr.
      { intros s ->. rewrite serialize_primitive in Hr by done. congruence. }
      destruct r as [[| | |s| |]|];
        try (destruct vr as [| | | |s'|]; try done;
             by specialize (Hstr s' eq_refl)).
      apply serialize_string_inv in Hr as ->. done.
    + rewrite Hout; [done|]. intros ((k & e) & Hk & Hin')%list_elem_of_fmap.
      cbn in Hk. subst k. apply elem_of_map_to_list in Hin'. congruence.
  - by subst r.
Qed.

Lemma ser_elems_kinds fuel h stack es js :
  ser_elems (SerializeJSONProperty fuel h stack) es = Some (Ok js) →
  json_kind <$> js = message_kind h <$> es.
Proof.
  intros H%ser_elems_Forall2.
  induction H as [|e j es js (r & Hr & ->) _ IH]; [done|].
  cbn [fmap list_fmap]. f_equal; [by eapply serialize_kind|done].
Qed.

(** A value other than the infinities and its serialisation have the same
    view. *)
Lemma serialize_view fuel h stack row j :
  SerializeJSONProperty fuel h stack row = Some (Ok (Some j)) →
  is_infinity row = false →
  json_view j = row_view h row.
Proof.
  intros Hser Hinf. destruct (is_object row) eqn:Hobj.
  2:{ rewrite serialize_primitive in Hser by done.
      destruct row as [| |b|n|s|]; simplify_eq; try done.
      - destruct n as [|neg|neg m e]; try done.
        unfold json_view, row_view. cbn.
        case_bool_decide as Hm; cbn; [|by rewrite bool_decide_eq_false_2].
        by rewrite bool_decide_eq_true_2.
      - unfold json_view, row_view. cbn. case_bool_decide; [done|]. cbn.
        unfold messages_view. pose proof (string_get_not_ref s "messages").
        destruct (string_get s "messages") as [| | | | |lm] eqn:Es; try done.
        by destruct (H0 lm). }
  destruct row as [| | | | |l]; try done. apply serialize_ref in Hser.
  unfold row_view. cbn [ToBoolean Get]. rewrite field_not_index by done.
  destruct (h !! l) as [[es|ps]|] eqn:E.
  - by destruct Hser as (fuel' & js & -> & [= ->] & _).
  - destruct Hser as (fuel' & ms & -> & [= ->] & Hms).
    unfold json_view. cbn [json_truthy].
    destruct (ser_members_member _ _ _ "messages" Hms (NoDup_fst_map_to_list ps))
      as [Hin Hout].
    destruct (ps !! "messages") as [vm|] eqn:Hmessages.
    2:{ rewrite Hout; [done|].
        intros ((k & e) & Hk & Hin')%list_elem_of_fmap.
        cbn in Hk. subst k. apply elem_of_map_to_list in Hin'. congruence. }
    apply elem_of_map_to_list in Hmessages.
    destruct (Hin _ Hmessages) as (r & Hr & ->). cbn [default from_option id].
    destruct (is_object vm) eqn:Hvm.
    2:{ rewrite serialize_primitive in Hr by done.
        destruct vm as [| | |n| |]; simplify_eq; try done.
        cbn. by destruct (ser_number n) eqn:En; try done; destruct n;
          try done; cbn in En; case_bool_decide. }
    destruct vm as [| | | | |lm]; try done. apply serialize_ref in Hr.
    cbn [messages_view].
    destruct (h !! lm) as [[es|pm]|] eqn:Em.
    + destruct Hr as (fuel'' & js & -> & -> & Hjs).
      by rewrite (ser_elems_kinds _ _ _ _ _ Hjs).
    + by destruct Hr as (fuel'' & ms' & -> & -> & _).
    + by subst r.
  - by simplify_eq.
Qed.

(** ** Reading a document *)

Lemma parse_items_spec p js :
  Forall (extends p) js → ∀ h vs h',
  parse_items p js h = (vs, h') →
  h ⊆ h' ∧ Forall2 (λ j v, ∃ ha hb, p j ha = (v, hb) ∧ hb ⊆ h') js vs.
Proof.
  induction 1 as [|j js Hj _ IH]; intros h vs h'; cbn [parse_items].
  - intros [= <- <-]. split; [done|constructor].
  - destruct (p j h) as [v h1] eqn:E1.
    destruct (parse_items p js h1) as [vs' h2] eqn:E2.
    intros [= <- <-]. destruct (IH _ _ _ E2) as [Hsub Hall].
    apply Hj in E1 as Hsub1. split; [by etrans|].
    constructor; [|done]. exists h, h1. by split.
Qed.

Lemma parse_members_spec p ms :
  Forall (λ kv, extends p kv.2) ms → ∀ acc h ps h',
  parse_members p ms acc h = (ps, h') →
  h ⊆ h'
  ∧ ∀ k, match member k ms with
         | Some j => ∃ v ha hb, ps !! k = Some v ∧ p j ha = (v, hb) ∧ hb ⊆ h'
         | None => ps !! k = acc !! k
         end.
Proof.
  induction 1 as [|[k0 j0] ms Hj _ IH]; intros acc h ps h';
    cbn [parse_members].
  - by intros [= <- <-].
  - destruct (p j0 h) as [v0 h1] eqn:E1. intros E2.
    destruct (IH _ _ _ _ E2) as (Hsub & Hk).
    apply Hj in E1 as Hsub1. split; [by etrans|].
    intros k. specialize (Hk k). cbn [member].
    destruct (member k ms) as [j|]; [done|].
    rewrite Hk. case_bool_decide as Hk0.
    + subst k0. exists v0, h, h1. by rewrite lookup_insert_eq.
    + by rewrite lookup_insert_ne.
Qed.

Lemma parse_extends j : extends parse j.
Proof.
  induction j as [| | | |js IH|ms IH] using json_induction;
    intros h v h'; cbn [parse]; try by intros [= <- <-].
  - destruct (parse_items parse js h) as [vs h1] eqn:E.
    apply parse_items_spec in E as [Hsub _]; [|done].
    intros ?%alloc_subseteq. by etrans.
  - destruct (parse_members parse ms ∅ h) as [ps h1] eqn:E.
    apply parse_members_spec in E as [Hsub _]; [|done].
    intros ?%alloc_subseteq. by etrans.
Qed.

Lemma parse_object ms h v h' :
  parse (JObj ms) h = (v, h') →
  ∃ l ps, v = VRef l ∧ h' !! l = Some (OPlain ps)
    ∧ ∀ k, match member k ms with
           | Some j =>
               ∃ vk ha hb, ps !! k = Some vk ∧ parse j ha = (vk, hb) ∧ hb ⊆ h'
           | None => ps !! k = None
           end.
Proof.
  cbn [parse]. destruct (parse_members parse ms ∅ h) as [ps h1] eqn:E.
  intros Halloc. apply alloc_subseteq in Halloc as Hsub.
  destruct (alloc_fresh h1 (OPlain ps)) as (l & Hl & _).
  rewrite Hl in Halloc. injection Halloc as <- <-.
  exists l, ps. split_and!; [done|apply lookup_insert_eq|].
  apply parse_members_spec in E as (_ & Hk).
  2:{ apply Forall_forall. intros. apply parse_extends. }
  intros k. specialize (Hk k). destruct (member k ms) as [j|]; [|done].
  destruct Hk as (vk & ha & hb & ? & ? & ?).
  exists vk, ha, hb. split_and!; [done..|]. by etrans.
Qed.

Lemma parse_array js h v h' :
  parse (JArr js) h = (v, h') →
  ∃ l vs, v = VRef l ∧ h' !! l = Some (OArray vs)
    ∧ Forall2 (λ j v, ∃ ha hb, parse j ha = (v, hb) ∧ hb ⊆ h') js vs.
Proof.
  cbn [parse]. destruct (parse_items parse js h) as [vs h1] eqn:E.
  intros Halloc. apply alloc_subseteq in Halloc as Hsub.
  destruct (alloc_fresh h1 (OArray vs)) as (l & Hl & _).
  rewrite Hl in Halloc. injection Halloc as <- <-.
  exists l, vs. split_and!; [done|apply lookup_insert_eq|].
  apply parse_items_spec in E as (_ & Hall).
  2:{ apply Forall_forall. intros. apply parse_extends. }
  eapply Forall2_impl; [done|]. intros j v (ha & hb & ? & ?).
  exists ha, hb. split; [done|]. by etrans.
Qed.

(** A document and the value read from it are of the same kind, in every
    store that extends the store after reading. *)
Lemma parse_kind j h v h1 h' :
  parse j h = (v, h1) → h1 ⊆ h' → message_kind h' v = json_kind j.
Proof.
  intros Hparse Hsub. destruct j as [| | | |js|ms];
    try by (cbn in Hparse; simplify_eq).
  - destruct (parse_array _ _ _ _ Hparse) as (l & vs & -> & Hl & _).
    unfold message_kind. cbn [is_object has_string_role json_kind].
    rewrite field_not_index by done.
    by rewrite (lookup_weaken _ _ _ _ Hl Hsub).
  - destruct (parse_object _ _ _ _ Hparse) as (l & ps & -> & Hl & Hk).
    unfold message_kind. cbn [is_object has_string_role json_kind].
    rewrite field_not_index by done.
    rewrite (lookup_weaken _ _ _ _ Hl Hsub). f_equal.
    specialize (Hk "role"). destruct (member "role" ms) as [jr|].
    + destruct Hk as (vr & ha & hb & -> & Hp & _). cbn [default from_option id].
      destruct vr as [| | | |s|];
        by (destruct jr; simplify_eq/=; repeat case_match; simplify_eq).
    + by rewrite Hk.
Qed.

Lemma parse_kinds js vs h' :
  Forall2 (λ j v, ∃ ha hb, parse j ha = (v, hb) ∧ hb ⊆ h') js vs →
  message_kind h' <$> vs = json_kind <$> js.
Proof.
  induction 1 as [|j v js vs (ha & hb & Hp & Hsub) _ IH]; [done|].
  cbn [fmap list_fmap]. f_equal; [by eapply parse_kind|done].
Qed.

(** A document and the value read from it have the same view. *)
Lemma parse_view j h v h' :
  parse j h = (v, h') → row_view h' v = json_view j.
Proof.
  intros Hparse. destruct j as [|b|n|s|js|ms].
  - by cbn in Hparse; simplify_eq.
  - cbn in Hparse; simplify_eq. by destruct b.
  - cbn in Hparse; simplify_eq. unfold row_view, json_view. cbn.
    by destruct (negb _).
  - cbn in Hparse; simplify_eq. unfold row_view, json_view. cbn.
    case_bool_decide; [done|]. cbn. unfold messages_view.
    pose proof (string_get_not_ref s "messages") as Hs.
    destruct (string_get s "messages") as [| | | | |lm] eqn:Es; try done.
    by destruct (Hs lm).
  - destruct (parse_array _ _ _ _ Hparse) as (l & vs & -> & Hl & _).
    unfold row_view, json_view. cbn [ToBoolean Get json_truthy].
    rewrite field_not_index by done. by rewrite Hl.
  - destruct (parse_object _ _ _ _ Hparse) as (l & ps & -> & Hl & Hk).
    unfold row_view, json_view. cbn [ToBoolean Get json_truthy].
    rewrite field_not_index by done. rewrite Hl.
    specialize (Hk "messages"). destruct (member "messages" ms) as [jm|].
    2:{ by rewrite Hk. }
    destruct Hk as (vm & ha & hb & -> & Hp & Hsub). cbn [default from_option id].
    destruct jm as [| | | |js|ms']; try by (cbn in Hp; simplify_eq).
    + destruct (parse_array _ _ _ _ Hp) as (lm & vs & -> & Hlm & Hall).
      cbn [messages_view]. rewrite (lookup_weaken _ _ _ _ Hlm Hsub).
      f_equal. apply parse_kinds. eapply Forall2_impl; [done|].
      intros j v (ha' & hb' & ? & ?). exists ha', hb'. split; [done|].
      by etrans.
    + destruct (parse_object _ _ _ _ Hp) as (lm & pm & -> & Hlm & _).
      cbn [messages_view]. by rewrite (lookup_weaken _ _ _ _ Hlm Hsub).
Qed.

(** C9.  Serialising a row with [JSON.stringify] and reading the document
    back with [JSON.parse] gives a value for which the validator returns the
    same report, hence the same error list, as for the row; this holds for
    every row, valid or not, for which [JSON.stringify] gives a document (a
    value that contains itself has none), and indeed for every such value
    except the numbers [Infinity] and [-Infinity]. *)
Theorem validate_json_roundtrip (h : heap) (row : value) (j : json)
    (Hdocument : stringify h row = Some (Ok (Some j)))
    (Hfinite : is_infinity row = false) :
  ∃ row' h' r,
    roundtrip h row = Some (Ok (row', h'))
    ∧ validateEvaluationRow h row = Ok r
    ∧ validateEvaluationRow h' row' = Ok r.
Proof.
  destruct (parse j h) as [row' h'] eqn:Hparse.
  exists row', h', (view_report (row_view h row)). split_and!.
  - unfold roundtrip. by rewrite Hdocument, Hparse.
  - apply validate_view.
  - rewrite validate_view. do 2 f_equal.
    rewrite (parse_view _ _ _ _ Hparse). by eapply serialize_view.
Qed.

Lemma validate_json_roundtrip_witness :
  (∃ row' h',
     roundtrip Examples.store (VRef 1) = Some (Ok (row', h'))
     ∧ validateEvaluationRow h' row' = Ok (Report true []))
  ∧ (∃ row' h',
       roundtrip Examples.store (VRef 15) = Some (Ok (row', h'))
       ∧ validateEvaluationRow h' row'
         = Ok (Report false ["messages[1].role must be a string"])).
Proof.
  split.
  - destruct (stringify Examples.store (VRef 1)) as [[[j|]|]|] eqn:Hdocument;
      try (vm_compute in Hdocument; discriminate).
    destruct (validate_json_roundtrip Examples.store (VRef 1) j)
      as (row' & h' & r & Hround & Hr & Hr'); [done..|].
    exists row', h'. split; [done|]. rewrite Hr', <-Hr. by vm_compute.
  - destruct (stringify Examples.store (VRef 15)) as [[[j|]|]|] eqn:Hdocument;
      try (vm_compute in Hdocument; discriminate).
    destruct (validate_json_roundtrip Examples.store (VRef 15) j)
      as (row' & h' & r & Hround & Hr & Hr'); [done..|].
    exists row', h'. split; [done|]. rewrite Hr', <-Hr. by vm_compute.
Defined.

(** The infinities are the exception: [JSON.stringify(Infinity)] is the
    text [null]. *)
Example validate_infinity_roundtrip :
  validateEvaluationRow ∅ (VNum (Infinity false))
  = Ok (Report false ["messages field is required and must be an array"])
  ∧ roundtrip ∅ (VNum (Infinity false)) = Some (Ok (VNull, ∅))
  ∧ validateEvaluationRow ∅ VNull
    = Ok (Report false ["EvaluationRow is null or undefined"]).
Proof. split_and!; by vm_compute. Qed.

(** ** The fuel of [JSON.stringify] is enough *)

Lemma ser_elems_total ser es :
  (∀ e, ser e ≠ None) → ser_elems ser es ≠ None.
Proof.
  intros Hser. induction es as [|e es IH]; [done|]. cbn [ser_elems].
  specialize (Hser e). destruct (ser e) as [[r|]|]; [|done..].
  by destruct (ser_elems ser es) as [[js|]|].
Qed.

Lemma ser_members_total ser kvs :
  (∀ e, ser e ≠ None) → ser_members ser kvs ≠ None.
Proof.
  intros Hser. induction kvs as [|[k e] kvs IH]; [done|]. cbn [ser_members].
  specialize (Hser e). destruct (ser e) as [[r|]|]; [|done..].
  by destruct (ser_members ser kvs) as [[ms|]|].
Qed.

Lemma serialize_total (h : heap) (fuel : nat) : ∀ (stack : list loc) v,
  NoDup stack → (∀ l, l ∈ stack → l ∈ dom h) →
  (size h ≤ length stack + fuel)%nat →
  SerializeJSONProperty fuel h stack v ≠ None.
Proof.
  induction fuel as [|fuel IH]; intros stack v Hnd Hdom Hsize.
  - destruct v as [| | | | |l]; try done. cbn [SerializeJSONProperty].
    case_bool_decide as Hl; [done|].
    destruct (h !! l) as [o|] eqn:E; [|done]. exfalso.
    assert (length (l :: stack) ≤ size (dom h))%nat as Hlen.
    { apply submseteq_length, NoDup_submseteq; [by constructor|].
      intros l' [->|?]%elem_of_cons; apply elem_of_elements;
        [by apply elem_of_dom|by apply Hdom]. }
    rewrite size_dom in Hlen. cbn in Hlen. lia.
  - destruct v as [| | | | |l]; try done. cbn [SerializeJSONProperty].
    case_bool_decide as Hl; [done|].
    destruct (h !! l) as [o|] eqn:E; [|done].
    assert (∀ e, SerializeJSONProperty fuel h (l :: stack) e ≠ None) as Hser.
    { intros e. apply IH.
      - by constructor.
      - intros l' [->|?]%elem_of_cons; [by apply elem_of_dom|by apply Hdom].
      - cbn. lia. }
    destruct o as [es|ps].
    + pose proof (ser_elems_total _ es Hser).
      by destruct (ser_elems _ es) as [[js|]|].
    + pose proof (ser_members_total _ (map_to_list ps) Hser).
      by destruct (ser_members _ _) as [[ms|]|].
Qed.

(** [JSON.stringify] never runs out of fuel: it gives a document, gives
    [undefined], or raises. *)
Lemma stringify_total h v : stringify h v ≠ None.
Proof.
  apply serialize_total; [constructor|by intros l ?%elem_of_nil|simpl; lia].
Qed.

(** It gives [undefined] for [undefined] only, so that for any other value
    it gives a document unless it raises. *)
Lemma stringify_document h v :
  v ≠ VUndefined →
  (∃ j, stringify h v = Some (Ok (Some j))) ∨ (∃ e, stringify h v = Some (Throw e)).
Proof.
  intros Hv. pose proof (stringify_total h v) as Hfuel.
  destruct (stringify h v) as [[[j|]|e]|] eqn:E; [by eauto| |by eauto|done].
  by apply serialize_none_inv in E.
Qed.

(** An object that contains itself has no serialisation. *)
Example stringify_cycle :
  stringify Examples.store (VRef 23) = Some (Throw TypeError).
Proof. by vm_compute. Qed.

(** * Further properties of the helpers *)

(** ** The validator *)

(** X1.  [validateEvaluationRow(row)] answers [valid = true] exactly when
    [row.messages] is a non-empty array all of whose elements are objects
    with a string [role]. *)
Theorem validator_accepts_iff (h : heap) (row : value) :
  ∃ r, validateEvaluationRow h row = Ok r
    ∧ (valid r = true ↔
       ∃ lm es, Get h row "messages" = Ok (VRef lm)
         ∧ h !! lm = Some (OArray es)
         ∧ es ≠ []
         ∧ Forall (λ msg, is_object msg = true
                          ∧ has_string_role h msg = true) es).
Proof.
  destruct (ToBoolean row) eqn:T.
  2:{ eexists. split; [by apply validate_falsy|]. split; [done|].
      intros (lm & es & [l ->]%Get_ref_inv & _). done. }
  destruct (Get_not_nullish h row "messages") as [messages G];
    [by apply truthy_not_nullish|].
  destruct (IsArray h messages) eqn:A.
  2:{ eexists. split; [by eapply validate_not_array|]. split; [done|].
      intros (lm & es & G' & E & _). rewrite G in G'. injection G' as ->.
      by rewrite (IsArray_ref _ _ _ E) in A. }
  apply IsArray_inv in A as (lm & es & -> & E).
  eexists. split; [by eapply validate_array|].
  assert (Forall (λ msg, is_object msg = true ∧ has_string_role h msg = true) es
          ↔ forallb (message_ok h) es = true) as Hall.
  { rewrite forallb_forall, Forall_forall.
    setoid_rewrite <-list_elem_of_In. unfold message_ok.
    by setoid_rewrite andb_true_iff. }
  case_bool_decide as Hes.
  - split; [done|]. intros (lm' & es' & G' & E' & Hne & _).
    rewrite G in G'. injection G' as <-. rewrite E in E'. by simplify_eq.
  - cbn [valid]. rewrite bool_decide_eq_true, message_errors_nil, <-Hall. split.
    + intros H. by exists lm, es.
    + intros (lm' & es' & G' & E' & _ & H).
      rewrite G in G'. injection G' as <-. rewrite E in E'. by simplify_eq.
Qed.

(** X2.  A truthy row whose [messages] is not an array (missing, [null], a
    string, a number, a plain object, ...) gets exactly the error "messages
    field is required and must be an array".  This is the report of every
    truthy value that is not an object (a non-zero number, a non-empty
    string, [true]) and of every row that is itself an array. *)
Theorem validate_messages_not_array (h : heap) (row : value)
    (Htruthy : ToBoolean row = true) :
  (∀ messages, Get h row "messages" = Ok messages →
     IsArray h messages = false →
     validateEvaluationRow h row
     = Ok (Report false
              ["messages field is required and must be an array"]))
  ∧ (is_object row = false →
     validateEvaluationRow h row
     = Ok (Report false
              ["messages field is required and must be an array"]))
  ∧ (∀ l es, row = VRef l → h !! l = Some (OArray es) →
       validateEvaluationRow h row
       = Ok (Report false
              ["messages field is required and must be an array"])).
Proof.
  split_and!.
  - intros messages G A. by eapply validate_not_array.
  - intros Hobj.
    destruct (Get_not_nullish h row "messages") as [messages G];
      [by apply truthy_not_nullish|].
    eapply validate_not_array; [done..|].
    destruct (IsArray h messages) eqn:A; [|done].
    apply IsArray_inv in A as (lm & es & -> & _).
    by apply Get_ref_inv in G as [l ->].
  - intros l es -> Hl. eapply validate_not_array; [done..|].
    rewrite field_not_index by done. by rewrite Hl.
Qed.

Lemma validate_messages_not_array_witness :
  Forall (λ row, validateEvaluationRow Examples.store row
                 = Ok (Report false
                         ["messages field is required and must be an array"]))
    [VNum (num_of_nat 5); VStr "row"; VBool true; VRef 2; VRef 8].
Proof.
  repeat apply Forall_cons_2; [..|apply Forall_nil_2].
  - by apply (validate_messages_not_array Examples.store (VNum (num_of_nat 5))).
  - by apply (validate_messages_not_array Examples.store (VStr "row")).
  - by apply (validate_messages_not_array Examples.store (VBool true)).
  - eapply (validate_messages_not_array Examples.store (VRef 2) eq_refl);
      [reflexivity|by vm_compute].
  - apply (proj1 (validate_messages_not_array Examples.store (VRef 8) eq_refl)
             VUndefined); by vm_compute.
Defined.

(** The decimal numeral of an index has only digits, so the index can be
    read back from an error message. *)
Lemma pretty_N_go_all_digits x s :
  all_digits s = true → all_digits (pretty_N_go x s) = true.
Proof.
  revert s. induction (N.lt_wf_0 x) as [x _ IH]; intros s Hs.
  assert (x = 0 ∨ 0 < x)%N as [->|?] by lia.
  - by rewrite pretty_N_go_0.
  - rewrite pretty_N_go_step by done. apply IH; [by apply N.div_lt|].
    cbn [all_digits]. by rewrite pretty_N_char_digit.
Qed.

Lemma pretty_nat_all_digits (n : nat) : all_digits (pretty n) = true.
Proof.
  unfold pretty, pretty_nat, pretty, pretty_N. case_decide; [done|].
  by apply pretty_N_go_all_digits.
Qed.

Lemma digits_bracket_inj a b s t :
  all_digits a = true → all_digits b = true →
  a +:+ String "]" s = b +:+ String "]" t → a = b ∧ s = t.
Proof.
  revert b. induction a as [|c a IH]; intros [|d b] Ha Hb; cbn.
  - by intros [= ->].
  - intros [= <- _]. by cbn in Hb.
  - intros [= -> _]. by cbn in Ha.
  - intros [= -> E]. cbn in Ha, Hb.
    apply andb_prop in Ha as [_ Ha]. apply andb_prop in Hb as [_ Hb].
    destruct (IH b Ha Hb E) as [-> ->]. done.
Qed.

Lemma error_message_inj (i j : nat) s t :
  "messages[" +:+ pretty i +:+ String "]" s
  = "messages[" +:+ pretty j +:+ String "]" t →
  i = j ∧ s = t.
Proof.
  intros E. cbn in E. simplify_eq.
  apply digits_bracket_inj in E as [E ->];
    [|apply pretty_nat_all_digits..].
  by apply (inj pretty) in E.
Qed.

Lemma length_omap_imap_errors h es :
  length (message_errors h es) = count_failing (message_ok h) es.
Proof.
  unfold message_errors, count_failing.
  assert (∀ f : nat → value → option string,
    (∀ i x, is_Some (f i x) ↔ message_ok h x = false) →
    length (omap id (imap f es))
    = length (filter (λ x, message_ok h x = false) es)) as help.
  { induction es as [|msg es IH]; intros f Hf; [done|].
    rewrite imap_cons, filter_cons. cbn [omap list_omap].
    specialize (Hf 0 msg) as Hmsg.
    specialize (IH (f ∘ S) (λ i x, Hf (S i) x)).
    destruct (f 0 msg) as [e|] eqn:E; cbn.
    - rewrite decide_True; [by cbn; f_equal|]. apply Hmsg. by eexists.
    - rewrite decide_False; [done|]. intros H%Hmsg. by destruct H. }
  apply help. intros i x. unfold message_error, message_ok.
  destruct (is_object x); cbn; [|by split; eauto].
  destruct (has_string_role h x); cbn; [|by split; eauto].
  split; [by intros [? ?]|done].
Qed.

(** X3.  When [row.messages] is a non-empty array, an error names index
    [i] exactly when element [i] is malformed: "messages[i] must be an
    object" is reported if and only if element [i] exists and is not an
    object, "messages[i].role must be a string" if and only if element [i] is
    an object whose [role] is not a string.  No well-formed message is
    reported, no message is reported twice, and the number of errors is the
    number of malformed messages. *)
Theorem validate_errors_name_malformed (h : heap) (row : value) (lm : loc)
    (es : list value)
    (Hmessages : Get h row "messages" = Ok (VRef lm))
    (Harray : h !! lm = Some (OArray es))
    (Hnonempty : es ≠ []) :
  ∃ r, validateEvaluationRow h row = Ok r
    ∧ (∀ i, ("messages[" +:+ pretty i +:+ "] must be an object") ∈ errors r
            ↔ ∃ msg, es !! i = Some msg ∧ is_object msg = false)
    ∧ (∀ i, ("messages[" +:+ pretty i +:+ "].role must be a string")
              ∈ errors r
            ↔ ∃ msg, es !! i = Some msg ∧ is_object msg = true
                ∧ has_string_role h msg = false)
    ∧ length (errors r) = count_failing (message_ok h) es
    ∧ (length (errors r) ≤ length es)%nat.
Proof.
  eexists. split.
  { rewrite (validate_array h row lm es) by done.
    by rewrite bool_decide_eq_false_2. }
  cbn [errors]. split_and!.
  - intros i. unfold message_errors. rewrite list_elem_of_omap. split.
    + intros (o & (j & msg & -> & Hj)%elem_of_lookup_imap_1 & Ho).
      unfold message_error in Ho.
      destruct (is_object msg) eqn:Hobj; cbn [negb] in Ho.
      * destruct (has_string_role h msg); cbn [negb] in Ho; [done|].
        apply (inj Some) in Ho.
        by apply (error_message_inj j i ".role must be a string"
                    " must be an object") in Ho as [_ ?].
      * apply (inj Some) in Ho.
        apply (error_message_inj j i " must be an object"
                 " must be an object") in Ho as [-> _]. by exists msg.
    + intros (msg & Hi & Hobj). exists (message_error h i msg).
      split; [by apply elem_of_lookup_imap_2|].
      unfold message_error. by rewrite Hobj.
  - intros i. unfold message_errors. rewrite list_elem_of_omap. split.
    + intros (o & (j & msg & -> & Hj)%elem_of_lookup_imap_1 & Ho).
      unfold message_error in Ho.
      destruct (is_object msg) eqn:Hobj; cbn [negb] in Ho.
      * destruct (has_string_role h msg) eqn:Hrole; cbn [negb] in Ho; [done|].
        apply (inj Some) in Ho.
        apply (error_message_inj j i ".role must be a string"
                 ".role must be a string") in Ho as [-> _]. by exists msg.
      * apply (inj Some) in Ho.
        by apply (error_message_inj j i " must be an object"
                    ".role must be a string") in Ho as [_ ?].
    + intros (msg & Hi & Hobj & Hrole). exists (message_error h i msg).
      split; [by apply elem_of_lookup_imap_2|].
      unfold message_error. by rewrite Hobj, Hrole.
  - apply length_omap_imap_errors.
  - rewrite length_omap_imap_errors. unfold count_failing.
    apply length_filter.
Qed.

Lemma validate_errors_name_malformed_witness :
  ∃ r, validateEvaluationRow Examples.store (VRef 15) = Ok r
    ∧ ("messages[1].role must be a string") ∈ errors r
    ∧ (("messages[0].role must be a string") ∉ errors r)
    ∧ length (errors r) = 1.
Proof.
  destruct (validate_errors_name_malformed Examples.store (VRef 15) 16
              [VRef 3; VRef 17]) as (r & Hr & _ & Hrole & Hlen & _);
    [by vm_compute..|].
  exists r. split; [done|]. split_and!.
  - apply (Hrole 1). exists (VRef 17). by vm_compute.
  - intros (msg & Hmsg & _ & Hbad)%(Hrole 0).
    injection Hmsg as <-. by vm_compute in Hbad.
  - rewrite Hlen. by vm_compute.
Defined.

(** X4.  The validator reads nothing of a row but [messages]: two truthy
    rows with the same [messages] get the same report, whatever their
    [tools], [input_metadata], [ground_truth] and [evaluation_result]
    hold. *)
Theorem validate_reads_only_messages (h : heap) (row1 row2 : value)
    (Htruthy1 : ToBoolean row1 = true)
    (Htruthy2 : ToBoolean row2 = true)
    (Hsame : Get h row1 "messages" = Get h row2 "messages") :
  validateEvaluationRow h row1 = validateEvaluationRow h row2.
Proof.
  rewrite !validate_view. unfold row_view.
  by rewrite Htruthy1, Htruthy2, Hsame.
Qed.

Lemma validate_reads_only_messages_witness :
  validateEvaluationRow Examples.store (VRef 1)
  = validateEvaluationRow Examples.store (VRef 20).
Proof.
  apply validate_reads_only_messages; by vm_compute.
Defined.

(** ** The type guard and the declared type *)

Lemma conforms_message_ok h msg :
  conforms h Message msg = true → message_ok h msg = true.
Proof.
  intros (l & -> & Hfields)%conforms_interface.
  unfold required, optional in Hfields.
  apply Forall_cons in Hfields as [[[? _]|Hrole] _]; [done|].
  cbn in Hrole. unfold message_ok. cbn [is_object has_string_role andb].
  apply bool_decide_eq_true in Hrole.
  by destruct (field h l "role").
Qed.

(** X5.  The guard accepts every value of the declared type: if [row]
    conforms to [EvaluationRow] then [isEvaluationRow(row)] returns [true],
    and [validateEvaluationRow(row)] reports no error unless [messages] is
    empty, in which case it reports exactly "messages array cannot be
    empty". *)
Theorem guard_accepts_declared_type (h : heap) (row : value)
    (Htyped : conforms h EvaluationRow row = true) :
  isEvaluationRow h row = Ok (VBool true)
  ∧ ∃ lm es, Get h row "messages" = Ok (VRef lm)
      ∧ h !! lm = Some (OArray es)
      ∧ validateEvaluationRow h row
        = Ok (if bool_decide (es = []) then
                Report false ["messages array cannot be empty"]
              else Report true []).
Proof.
  apply conforms_interface in Htyped as (l & -> & Hfields).
  unfold required, optional in Hfields.
  apply Forall_cons in Hfields as [[[? _]|Hm] _]; [done|].
  cbn [fst snd] in Hm.
  apply conforms_array in Hm as (lm & es & Hfield & Hlm & Hes).
  assert (forallb (message_ok h) es = true) as Hok.
  { apply forallb_forall. intros msg Hmsg%list_elem_of_In.
    apply conforms_message_ok. by eapply Forall_forall in Hes. }
  assert (Get h (VRef l) "messages" = Ok (VRef lm)) as G.
  { rewrite Get_ref. by f_equal. }
  split.
  - by rewrite (isEvaluationRow_array h _ lm es), Hok.
  - exists lm, es. split_and!; [done..|].
    rewrite (validate_array h _ lm es) by done.
    case_bool_decide; [done|].
    apply message_errors_nil in Hok. rewrite Hok.
    by rewrite bool_decide_eq_true_2.
Qed.

Lemma guard_accepts_declared_type_witness :
  isEvaluationRow Examples.store (VRef 1) = Ok (VBool true)
  ∧ validateEvaluationRow Examples.store (VRef 1) = Ok (Report true []).
Proof.
  destruct (guard_accepts_declared_type Examples.store (VRef 1))
    as (Hguard & lm & es & Hm & Hlm & Hreport); [by vm_compute|].
  split; [done|]. rewrite Hreport.
  vm_compute in Hm. injection Hm as <-. vm_compute in Hlm.
  injection Hlm as <-. done.
Defined.

(** ** The accessors outside the declared type *)

(** X6.  [isTrajectoryEvaluation(row)] raises a TypeError when [row] is
    [null] or [undefined], when [row.evaluation_result] is [null] and when
    [row.evaluation_result.step_outputs] is [null]; it returns [false] when
    [evaluation_result] is a number, a boolean or a string, which have no
    [step_outputs]; and whenever it returns, the result is a boolean. *)
Theorem isTrajectoryEvaluation_failures
    (StringToNumber : string → number)
    (ObjectToNumber : heap → loc → outcome number)
    (h : heap) (row : value) :
  (nullish row = true →
   isTrajectoryEvaluation StringToNumber ObjectToNumber h row
   = Throw TypeError)
  ∧ (Get h row "evaluation_result" = Ok VNull →
     isTrajectoryEvaluation StringToNumber ObjectToNumber h row
     = Throw TypeError)
  ∧ (∀ er, Get h row "evaluation_result" = Ok er →
       Get h er "step_outputs" = Ok VNull →
       isTrajectoryEvaluation StringToNumber ObjectToNumber h row
       = Throw TypeError)
  ∧ (∀ er, Get h row "evaluation_result" = Ok er →
       is_object er = false → nullish er = false →
       isTrajectoryEvaluation StringToNumber ObjectToNumber h row
       = Ok (VBool false))
  ∧ (∀ v, isTrajectoryEvaluation StringToNumber ObjectToNumber h row = Ok v →
       ∃ b, v = VBool b).
Proof.
  unfold isTrajectoryEvaluation, land. split_and!.
  - by destruct row.
  - by intros ->.
  - intros er -> G. cbn [mbind outcome_bind].
    destruct (strict_eq er VUndefined) eqn:E.
    { apply strict_eq_undefined in E as ->. done. }
    cbn [negb ToBoolean]. rewrite G. done.
  - intros er -> Hobj Hnull. cbn [mbind outcome_bind].
    assert (Get h er "step_outputs" = Ok VUndefined) as ->.
    { destruct er as [| |b|n|s|l]; try done. cbn. f_equal.
      unfold string_get. rewrite bool_decide_eq_false_2 by done.
      by apply index_get_not_index. }
    by destruct er.
  - intros v. destruct (Get h row "evaluation_result") as [er|]; [|done].
    cbn [mbind outcome_bind].
    destruct (negb (strict_eq er VUndefined)); cbn [ToBoolean];
      [|intros [= <-]; by eexists].
    destruct (Get h er "step_outputs") as [so|]; [|done].
    cbn [mbind outcome_bind].
    destruct (negb (strict_eq so VUndefined)); cbn [ToBoolean];
      [|intros [= <-]; by eexists].
    destruct (Get h so "length") as [len|]; [|done]. cbn [mbind outcome_bind].
    destruct (gt_num _ _ h len _) as [b|]; [|done].
    intros [= <-]. by eexists.
Qed.

(** [Array.prototype.filter] stops at the first callback that raises. *)
Lemma filter_elems_role_throws h r es :
  Exists (λ msg, nullish msg = true) es →
  filter_elems (role_is h r) es = Throw TypeError.
Proof.
  induction es as [|msg es IH]; [by intros ?%Exists_nil|].
  intros Hex. cbn [filter_elems]. destruct (nullish msg) eqn:Hmsg.
  { by destruct msg. }
  rewrite role_is_spec by done. cbn [mbind outcome_bind].
  rewrite IH; [done|]. apply Exists_cons in Hex as [Hex|Hex]; [|done].
  congruence.
Qed.

Lemma classic_filterable h row :
  (∀ es : list value,
     Forall (λ msg, nullish msg = false) es
     ∨ Exists (λ msg, nullish msg = true) es) →
  filterable h row ∨ ¬ filterable h row.
Proof.
  intros Hdec. unfold filterable.
  destruct (Get h row "messages") as [[| | | | |lm]|] eqn:G;
    try (right; by intros (? & ? & ? & _)).
  destruct (h !! lm) as [[es|ps]|] eqn:E;
    try (right; intros (? & ? & ? & ? & _); by simplify_eq).
  destruct (Hdec es) as [Hall|Hex]; [left; by exists lm, es|].
  right. intros (lm' & es' & ? & ? & Hall). simplify_eq.
  apply Exists_exists in Hex as (msg & Hin & Hmsg).
  eapply Forall_forall in Hall; [|done]. congruence.
Qed.

Lemma filters_return_normally_aux h row lm es :
  Get h row "messages" = Ok (VRef lm) →
  h !! lm = Some (OArray es) →
  Forall (λ msg, nullish msg = false) es →
  returns (getAssistantMessages h row) ∧ returns (getUserMessages h row).
Proof.
  intros G E Hes. unfold getAssistantMessages, getUserMessages.
  rewrite G. cbn [mbind outcome_bind]. unfold array_receiver. rewrite E.
  cbn [mbind outcome_bind]. rewrite !filter_elems_role by done.
  split; by eexists.
Qed.

(** X7.  [getAssistantMessages(row)] and [getUserMessages(row)] return
    normally exactly when [row.messages] is an array without [null] or
    [undefined] elements; in every other case ([row] is [null] or
    [undefined], [messages] is missing or not an array, some element is
    [null] or [undefined]) they raise a TypeError. *)
Theorem filters_return_iff (h : heap) (row : value) :
  (returns (getAssistantMessages h row) ↔ filterable h row)
  ∧ (returns (getUserMessages h row) ↔ filterable h row)
  ∧ (¬ filterable h row →
     getAssistantMessages h row = Throw TypeError
     ∧ getUserMessages h row = Throw TypeError).
Proof.
  assert (∀ es : list value,
            Forall (λ msg, nullish msg = false) es
            ∨ Exists (λ msg, nullish msg = true) es) as Hdec.
  { induction es as [|msg es [IH|IH]]; [by left| |by right; right].
    destruct (nullish msg) eqn:E; [right; by left|left; by constructor]. }
  assert (∀ r, ¬ filterable h row →
            (messages ← Get h row "messages";
             es ← array_receiver h messages;
             kept ← filter_elems (role_is h r) es;
             Ok (alloc h (OArray kept))) = Throw TypeError) as Hthrow.
  { intros r Hnot.
    destruct (Get h row "messages") as [messages|[]] eqn:G; [|done|].
    2:{ by destruct row. }
    cbn [mbind outcome_bind].
    destruct messages as [| | | | |lm]; try done. cbn.
    destruct (h !! lm) as [[es|ps]|] eqn:E; try done.
    cbn [mbind outcome_bind].
    rewrite filter_elems_role_throws; [done|].
    destruct (Hdec es) as [Hall|Hex]; [|done].
    destruct Hnot. by exists lm, es. }
  assert (∀ r, returns (messages ← Get h row "messages";
                        es ← array_receiver h messages;
                        kept ← filter_elems (role_is h r) es;
                        Ok (alloc h (OArray kept))) → filterable h row)
    as Hret.
  { intros r [res Hres].
    destruct (classic_filterable h row Hdec) as [?|Hnot]; [done|].
    by rewrite Hthrow in Hres. }
  split_and!.
  - split; [apply (Hret "assistant")|].
    intros (lm & es & G & E & Hes).
    by destruct (filters_return_normally_aux h row lm es G E Hes) as [? _].
  - split; [apply (Hret "user")|].
    intros (lm & es & G & E & Hes).
    by destruct (filters_return_normally_aux h row lm es G E Hes) as [_ ?].
  - intros Hnot. by split; [apply (Hthrow "assistant")|apply (Hthrow "user")].
Qed.

(** ** Calls in sequence *)

(** A new array has no [role], so it is no message of either role. *)
Lemma has_role_alloc_array h l kept r msg :
  h !! l = None →
  has_role (<[l := OArray kept]> h) r msg = has_role h r msg.
Proof.
  intros Hl. unfold has_role. destruct msg as [| | | | |lv]; try done.
  rewrite !Get_ref. destruct (decide (lv = l)) as [->|Hne].
  - rewrite !field_not_index by done. by rewrite lookup_insert_eq, Hl.
  - unfold field. by rewrite lookup_insert_ne.
Qed.

Lemma filter_has_role_alloc_array h l kept r (es : list value) :
  h !! l = None →
  filter (has_role (<[l := OArray kept]> h) r) es = filter (has_role h r) es.
Proof.
  intros Hl. apply list_filter_iff. intros msg.
  by rewrite has_role_alloc_array.
Qed.

Lemma Get_messages_alloc h l o row lm es :
  h !! l = None →
  Get h row "messages" = Ok (VRef lm) →
  h !! lm = Some (OArray es) →
  Get (<[l := o]> h) row "messages" = Ok (VRef lm)
  ∧ <[l := o]> h !! lm = Some (OArray es).
Proof.
  intros Hl G E. assert (h ⊆ <[l := o]> h) as Hsub by by apply insert_subseteq.
  split; [|by eapply lookup_weaken].
  destruct (Get_ref_inv _ _ _ _ G) as [lv ->]. rewrite Get_ref in *.
  f_equal. injection G as G. unfold field in *.
  destruct (h !! lv) as [ov|] eqn:Ev; [|done].
  by rewrite (lookup_weaken _ _ _ _ Ev Hsub).
Qed.

Lemma getAssistantMessages_array h row lm es :
  Get h row "messages" = Ok (VRef lm) →
  h !! lm = Some (OArray es) →
  Forall (λ msg, nullish msg = false) es →
  getAssistantMessages h row
  = Ok (alloc h (OArray (filter (has_role h "assistant") es))).
Proof.
  intros G E Hes. unfold getAssistantMessages. rewrite G.
  cbn [mbind outcome_bind]. unfold array_receiver. rewrite E.
  cbn [mbind outcome_bind]. by rewrite filter_elems_role.
Qed.

Lemma getUserMessages_array h row lm es :
  Get h row "messages" = Ok (VRef lm) →
  h !! lm = Some (OArray es) →
  Forall (λ msg, nullish msg = false) es →
  getUserMessages h row
  = Ok (alloc h (OArray (filter (has_role h "user") es))).
Proof.
  intros G E Hes. unfold getUserMessages. rewrite G.
  cbn [mbind outcome_bind]. unfold array_receiver. rewrite E.
  cbn [mbind outcome_bind]. by rewrite filter_elems_role.
Qed.

(** X8.  Calls of the filters one after the other do not disturb each
    other: after [getAssistantMessages(row)], [getUserMessages(row)] and a
    second [getAssistantMessages(row)], the three results are three distinct
    arrays, the two assistant arrays hold the same messages, and each array
    still holds what its call returned, namely the selection made in the
    store before the first call. *)
Theorem filters_in_sequence (h : heap) (row : value) (lm : loc)
    (es : list value)
    (Hmessages : Get h row "messages" = Ok (VRef lm))
    (Harray : h !! lm = Some (OArray es))
    (Helems : Forall (λ msg, nullish msg = false) es) :
  ∃ la h1 lu h2 la' h3,
    getAssistantMessages h row = Ok (VRef la, h1)
    ∧ getUserMessages h1 row = Ok (VRef lu, h2)
    ∧ getAssistantMessages h2 row = Ok (VRef la', h3)
    ∧ h3 !! la = Some (OArray (filter (has_role h "assistant") es))
    ∧ h3 !! lu = Some (OArray (filter (has_role h "user") es))
    ∧ h3 !! la' = Some (OArray (filter (has_role h "assistant") es))
    ∧ la ≠ lu ∧ la ≠ la' ∧ lu ≠ la'
    ∧ h ⊆ h3.
Proof.
  set (assistants := filter (has_role h "assistant") es).
  set (users := filter (has_role h "user") es).
  destruct (alloc_fresh h (OArray assistants)) as (la & Ha & Hla%not_elem_of_dom).
  set (h1 := <[la := OArray assistants]> h) in *.
  destruct (Get_messages_alloc h la (OArray assistants) row lm es)
    as [G1 E1]; [done..|]. fold h1 in G1, E1.
  assert (filter (has_role h1 "user") es = users) as Hu1.
  { by apply filter_has_role_alloc_array. }
  assert (filter (has_role h1 "assistant") es = assistants) as Ha1.
  { by apply filter_has_role_alloc_array. }
  destruct (alloc_fresh h1 (OArray users)) as (lu & Hu & Hlu%not_elem_of_dom).
  set (h2 := <[lu := OArray users]> h1) in *.
  destruct (Get_messages_alloc h1 lu (OArray users) row lm es)
    as [G2 E2]; [done..|]. fold h2 in G2, E2.
  assert (filter (has_role h2 "assistant") es = assistants) as Ha2.
  { unfold h2. by rewrite filter_has_role_alloc_array. }
  destruct (alloc_fresh h2 (OArray assistants))
    as (la' & Ha' & Hla'%not_elem_of_dom).
  set (h3 := <[la' := OArray assistants]> h2) in *.
  assert (h1 !! la = Some (OArray assistants)) as L1
    by apply lookup_insert_eq.
  assert (h2 !! lu = Some (OArray users)) as L2 by apply lookup_insert_eq.
  assert (h ⊆ h1) as S1 by by apply insert_subseteq.
  assert (h1 ⊆ h2) as S2 by by apply insert_subseteq.
  assert (h2 ⊆ h3) as S3 by by apply insert_subseteq.
  exists la, h1, lu, h2, la', h3. split_and!.
  - rewrite (getAssistantMessages_array h row lm es) by done.
    f_equal. exact Ha.
  - rewrite (getUserMessages_array h1 row lm es), Hu1 by done.
    f_equal. exact Hu.
  - rewrite (getAssistantMessages_array h2 row lm es), Ha2 by done.
    f_equal. exact Ha'.
  - eapply lookup_weaken; [|exact S3]. by eapply lookup_weaken.
  - by eapply lookup_weaken.
  - apply lookup_insert_eq.
  - intros ->. congruence.
  - intros ->. eapply lookup_weaken in L1; [|exact S2]. congruence.
  - intros ->. congruence.
  - by do 2 (etrans; [done|]).
Qed.

Lemma filters_in_sequence_witness :
  ∃ la h1 lu h2 la' h3,
    getAssistantMessages Examples.store (VRef 1) = Ok (VRef la, h1)
    ∧ getUserMessages h1 (VRef 1) = Ok (VRef lu, h2)
    ∧ getAssistantMessages h2 (VRef 1) = Ok (VRef la', h3)
    ∧ h3 !! la = Some (OArray [VRef 4; VRef 6])
    ∧ h3 !! lu = Some (OArray [VRef 3; VRef 5])
    ∧ h3 !! la' = Some (OArray [VRef 4; VRef 6])
    ∧ la ≠ la'.
Proof.
  destruct (filters_in_sequence Examples.store (VRef 1) 2
              [VRef 3; VRef 4; VRef 5; VRef 6])
    as (la & h1 & lu & h2 & la' & h3 & H1 & H2 & H3 & La & Lu & La'
        & _ & Hne & _);
    [by vm_compute| by vm_compute| by repeat constructor|].
  exists la, h1, lu, h2, la', h3. split_and!; assumption.
Defined.

(** ** Counting messages *)

Lemma length_filter_roles h (es : list value) :
  (length (filter (has_role h "assistant") es)
   + length (filter (has_role h "user") es) ≤ length es)%nat
  ∧ (length (filter (has_role h "assistant") es)
     + length (filter (has_role h "user") es) = length es
     ↔ Forall (λ msg, has_role h "assistant" msg || has_role h "user" msg
                      = true) es).
Proof.
  induction es as [|msg es [IHle IHeq]]; [by split|].
  rewrite !filter_cons, Forall_cons.
  assert (has_role h "assistant" msg = true →
          has_role h "user" msg = true → False) as Hdisjoint.
  { unfold has_role. rewrite !bool_decide_eq_true. congruence. }
  destruct (decide (has_role h "assistant" msg)) as [Ha|Ha];
    destruct (decide (has_role h "user" msg)) as [Hu|Hu].
  - destruct Hdisjoint; by apply Is_true_true.
  - apply Is_true_true in Ha. apply Is_true_false in Hu. rewrite Ha, Hu.
    cbn [length orb]. split; [lia|]. rewrite <-IHeq.
    split; [intros; split; [done|lia]|]. intros [_ ?]. lia.
  - apply Is_true_false in Ha. apply Is_true_true in Hu. rewrite Ha, Hu.
    cbn [length orb]. split; [lia|]. rewrite <-IHeq.
    split; [intros; split; [done|lia]|]. intros [_ ?]. lia.
  - apply Is_true_false in Ha, Hu. rewrite Ha, Hu. cbn [length orb].
    split; [lia|]. split; [lia|]. by intros [? _].
Qed.

(** X9.  For a row whose [messages] is an array without [null] or
    [undefined] elements, [getConversationLength(row)] is the number of
    messages, and the assistant and user messages together are at most that
    many; they are exactly that many if and only if every message has role
    "assistant" or "user" (no "system" or "tool" message, no message without
    a role). *)
Theorem conversation_length_bounds_filters (h : heap) (row : value) (lm : loc)
    (es : list value)
    (Hmessages : Get h row "messages" = Ok (VRef lm))
    (Harray : h !! lm = Some (OArray es))
    (Helems : Forall (λ msg, nullish msg = false) es) :
  ∃ la lu h_a h_u assistants users,
    getAssistantMessages h row = Ok (VRef la, h_a)
    ∧ h_a !! la = Some (OArray assistants)
    ∧ getUserMessages h row = Ok (VRef lu, h_u)
    ∧ h_u !! lu = Some (OArray users)
    ∧ getConversationLength h row = Ok (VNum (num_of_nat (length es)))
    ∧ (length assistants + length users ≤ length es)%nat
    ∧ (length assistants + length users = length es
       ↔ Forall (λ msg, Get h msg "role" = Ok (VStr "assistant")
                        ∨ Get h msg "role" = Ok (VStr "user")) es).
Proof.
  destruct (alloc_fresh h (OArray (filter (has_role h "assistant") es)))
    as (la & Ha & _).
  destruct (alloc_fresh h (OArray (filter (has_role h "user") es)))
    as (lu & Hu & _).
  exists la, lu. do 2 eexists.
  exists (filter (has_role h "assistant") es), (filter (has_role h "user") es).
  destruct (length_filter_roles h es) as [Hle Heq].
  split_and!.
  - by rewrite (getAssistantMessages_array h row lm es), Ha.
  - apply lookup_insert_eq.
  - by rewrite (getUserMessages_array h row lm es), Hu.
  - apply lookup_insert_eq.
  - unfold getConversationLength. rewrite Hmessages.
    cbn [mbind outcome_bind]. rewrite Get_ref. unfold field.
    rewrite Harray. unfold array_get. by rewrite bool_decide_eq_true_2.
  - done.
  - rewrite Heq. apply Forall_proper; [|done]. intros msg.
    unfold has_role. rewrite orb_true_iff, !bool_decide_eq_true. done.
Qed.

Lemma conversation_length_bounds_filters_witness :
  ∃ la lu h_a h_u assistants users,
    getAssistantMessages Examples.store (VRef 1) = Ok (VRef la, h_a)
    ∧ h_a !! la = Some (OArray assistants)
    ∧ getUserMessages Examples.store (VRef 1) = Ok (VRef lu, h_u)
    ∧ h_u !! lu = Some (OArray users)
    ∧ getConversationLength Examples.store (VRef 1)
      = Ok (VNum (num_of_nat 4))
    ∧ (length assistants + length users ≤ 4)%nat.
Proof.
  destruct (conversation_length_bounds_filters Examples.store (VRef 1) 2
              [VRef 3; VRef 4; VRef 5; VRef 6])
    as (la & lu & h_a & h_u & assistants & users
        & Ha & Hla & Hu & Hlu & Hlen & Hle & _);
    [by vm_compute| by vm_compute| by repeat constructor|].
  exists la, lu, h_a, h_u, assistants, users. split_and!; assumption.
Defined.

(** ** Validation before use *)

Lemma validate_valid_inv h row r :
  validateEvaluationRow h row = Ok r → valid r = true →
  ∃ lm es, Get h row "messages" = Ok (VRef lm)
    ∧ h !! lm = Some (OArray es)
    ∧ es ≠ []
    ∧ forallb (message_ok h) es = true.
Proof.
  intros Hr Hvalid. destruct (ToBoolean row) eqn:T.
  2:{ rewrite validate_falsy in Hr by done. by simplify_eq. }
  destruct (Get_not_nullish h row "messages") as [messages G];
    [by apply truthy_not_nullish|].
  destruct (IsArray h messages) eqn:A.
  2:{ rewrite (validate_not_array h row messages) in Hr by done.
      by simplify_eq. }
  apply IsArray_inv in A as (lm & es & -> & E).
  rewrite (validate_array h row lm es) in Hr by done.
  exists lm, es. case_bool_decide as Hes; [by simplify_eq|].
  injection Hr as <-. cbn [valid] in Hvalid.
  apply bool_decide_eq_true in Hvalid.
  split_and!; [done..|]. by apply message_errors_nil.
Qed.

(** X10.  A row that the validator reports as valid is safe for the
    accessors that read [messages] and [input_metadata]: both filters
    return normally, [getConversationLength] returns a positive number, and
    [getInputMetadata] returns for every key and default. *)
Theorem validated_row_accessors (h : heap) (row : value) (r : report)
    (Hreport : validateEvaluationRow h row = Ok r)
    (Hvalid : valid r = true) :
  returns (getAssistantMessages h row)
  ∧ returns (getUserMessages h row)
  ∧ (∃ n, (0 < n)%nat
       ∧ getConversationLength h row = Ok (VNum (num_of_nat n)))
  ∧ (∀ key defaultValue, returns (getInputMetadata h row key defaultValue)).
Proof.
  destruct (validate_valid_inv h row r Hreport Hvalid)
    as (lm & es & G & E & Hes & Hok).
  assert (Forall (λ msg, nullish msg = false) es) as Hnn.
  { apply Forall_forall. intros msg Hmsg%list_elem_of_In.
    eapply forallb_forall in Hok; [|done].
    apply andb_prop in Hok as [Hobj _]. by apply is_object_not_nullish. }
  destruct (Get_ref_inv _ _ _ _ G) as [l ->].
  split_and!.
  - rewrite (getAssistantMessages_array h _ lm es) by done. by eexists.
  - rewrite (getUserMessages_array h _ lm es) by done. by eexists.
  - exists (length es). split; [destruct es; [done|cbn; lia]|].
    unfold getConversationLength. rewrite G. cbn [mbind outcome_bind].
    rewrite Get_ref. unfold field. rewrite E. unfold array_get.
    by rewrite bool_decide_eq_true_2.
  - intros key d. unfold getInputMetadata. rewrite Get_ref.
    cbn [mbind outcome_bind].
    destruct (OptGet_returns h (field h l "input_metadata") key) as [v ->].
    by eexists.
Qed.

Lemma validated_row_accessors_witness :
  returns (getAssistantMessages Examples.store (VRef 1))
  ∧ returns (getUserMessages Examples.store (VRef 1))
  ∧ (∃ n, (0 < n)%nat
       ∧ getConversationLength Examples.store (VRef 1)
         = Ok (VNum (num_of_nat n)))
  ∧ (∀ key defaultValue,
       returns (getInputMetadata Examples.store (VRef 1) key defaultValue)).
Proof.
  apply (validated_row_accessors Examples.store (VRef 1) (Report true []));
    by vm_compute.
Defined.

(** ** Metadata lookup with a default *)

(** X11.  [getInputMetadata(row, key, defaultValue)] raises a TypeError
    when [row] is [null] or [undefined] and returns for every other row.  The
    result is [defaultValue] or the value read under [key] from
    [row.input_metadata], and the latter only when that value is neither
    [null] nor [undefined]; so with a default that is neither, the result is
    never [null] or [undefined]. *)
Theorem getInputMetadata_default (h : heap) (row : value) (key : string)
    (defaultValue : value) :
  (nullish row = true →
   getInputMetadata h row key defaultValue = Throw TypeError)
  ∧ (nullish row = false →
     ∃ v, getInputMetadata h row key defaultValue = Ok v
       ∧ (v = defaultValue
          ∨ nullish v = false
            ∧ ∃ input_metadata,
                Get h row "input_metadata" = Ok input_metadata
                ∧ Get h input_metadata key = Ok v)
       ∧ (nullish defaultValue = false → nullish v = false)).
Proof.
  unfold getInputMetadata. split; [by destruct row|]. intros Hrow.
  destruct (Get_not_nullish h row "input_metadata" Hrow) as [im G].
  rewrite G. cbn [mbind outcome_bind]. unfold OptGet.
  destruct (nullish im) eqn:Him.
  { cbn [mbind outcome_bind coalesce nullish]. eexists.
    split; [done|]. split; [by left|done]. }
  destruct (Get_not_nullish h im key Him) as [v Gv]. rewrite Gv.
  cbn [mbind outcome_bind]. unfold coalesce.
  destruct (nullish v) eqn:Hv.
  - eexists. split; [done|]. split; [by left|done].
  - exists v. split; [done|]. split; [|done]. right. split; [done|].
    by exists im.
Qed.

(** ** The constructor and its options *)

(** X12.  [createEvaluationRow] reads [options] only through its
    properties [tools], [inputMetadata], [groundTruth] and
    [evaluationResult]: two [options] values that agree on these four give
    the same row.  In particular an options object written with the field
    names of the row ([input_metadata], [ground_truth], ...) is treated like
    no options at all. *)
Theorem createEvaluationRow_reads_four_options (h : heap)
    (messages options1 options2 : value)
    (Hsame : Forall (λ k, OptGet h options1 k = OptGet h options2 k)
               ["tools"; "inputMetadata"; "groundTruth"; "evaluationResult"]) :
  createEvaluationRow h messages options1
  = createEvaluationRow h messages options2.
Proof.
  unfold createEvaluationRow.
  apply Forall_cons in Hsame as [-> Hsame].
  apply Forall_cons in Hsame as [-> Hsame].
  apply Forall_cons in Hsame as [-> Hsame].
  by apply Forall_cons in Hsame as [-> _].
Qed.

Lemma createEvaluationRow_reads_four_options_witness :
  createEvaluationRow Examples.store (VRef 2) (VRef 18)
  = createEvaluationRow Examples.store (VRef 2) VUndefined.
Proof.
  apply createEvaluationRow_reads_four_options.
  repeat constructor; by vm_compute.
Defined.

(** A new plain object without [role] is no well-formed message, like the
    unallocated reference it replaces. *)
Lemma message_ok_alloc_plain h l ps msg :
  h !! l = None → ps !! "role" = None →
  message_ok (<[l := OPlain ps]> h) msg = message_ok h msg.
Proof.
  intros Hl Hrole. unfold message_ok. destruct msg as [| | | | |lv]; try done.
  cbn [is_object has_string_role andb].
  destruct (decide (lv = l)) as [->|Hne].
  - rewrite !field_not_index by done.
    by rewrite lookup_insert_eq, Hl, Hrole.
  - unfold field. by rewrite lookup_insert_ne.
Qed.

Lemma lookup_array_alloc_plain (h : heap) l ps lm es :
  h !! l = None →
  <[l := OPlain ps]> h !! lm = Some (OArray es) ↔ h !! lm = Some (OArray es).
Proof.
  intros Hl. destruct (decide (lm = l)) as [->|Hne].
  - rewrite lookup_insert_eq, Hl. naive_solver.
  - by rewrite lookup_insert_ne.
Qed.

(** X13.  The constructor does not validate: the row it returns holds the
    given [messages] value, and it is valid (for the validator) exactly when
    that value is a non-empty array of objects with a string [role], and
    accepted by the type guard exactly when it is an array of such objects,
    whatever [options] is. *)
Theorem created_row_validity (h : heap) (messages options : value) :
  ∃ l h' r g,
    createEvaluationRow h messages options = Ok (VRef l, h')
    ∧ Get h' (VRef l) "messages" = Ok messages
    ∧ validateEvaluationRow h' (VRef l) = Ok r
    ∧ isEvaluationRow h' (VRef l) = Ok (VBool g)
    ∧ (valid r = true ↔
       ∃ lm es, messages = VRef lm ∧ h !! lm = Some (OArray es)
         ∧ es ≠ [] ∧ forallb (message_ok h) es = true)
    ∧ (g = true ↔
       ∃ lm es, messages = VRef lm ∧ h !! lm = Some (OArray es)
         ∧ forallb (message_ok h) es = true).
Proof.
  unfold createEvaluationRow.
  destruct (OptGet_returns h options "tools") as [a ->].
  destruct (OptGet_returns h options "inputMetadata") as [b ->].
  destruct (OptGet_returns h options "groundTruth") as [c ->].
  destruct (OptGet_returns h options "evaluationResult") as [d ->].
  cbn [mbind outcome_bind].
  match goal with
  | |- context [alloc h (OPlain ?m)] =>
      set (ps := m); destruct (alloc_fresh h (OPlain ps))
        as (l & -> & Hl%not_elem_of_dom)
  end.
  assert (ps !! "role" = None) as Hrole by by vm_compute.
  assert (ps !! "messages" = Some messages) as Hm by by vm_compute.
  set (h' := <[l := OPlain ps]> h).
  assert (Get h' (VRef l) "messages" = Ok messages) as G.
  { rewrite Get_ref. unfold field, h'. by rewrite lookup_insert_eq, Hm. }
  assert (∀ es, forallb (message_ok h') es = forallb (message_ok h) es)
    as Hok.
  { intros es. induction es as [|msg es IH]; [done|]. cbn [forallb].
    unfold h' at 1. by rewrite message_ok_alloc_plain, IH. }
  exists l, h'.
  destruct (IsArray h' messages) eqn:A.
  - apply IsArray_inv in A as (lm & es & -> & E).
    apply lookup_array_alloc_plain in E as E0; [|done].
    do 2 eexists. split; [done|]. split; [done|].
    split; [by apply (validate_array h' _ lm es)|].
    split; [by apply (isEvaluationRow_array h' _ lm es)|].
    rewrite Hok. split.
    + case_bool_decide as Hes.
      * split; [done|]. intros (? & ? & ? & ? & ? & _). by simplify_eq.
      * cbn [valid]. rewrite bool_decide_eq_true, message_errors_nil, Hok.
        split; [intros ?; by exists lm, es|].
        intros (? & ? & ? & ? & _ & ?). by simplify_eq.
    + split; [intros ?; by exists lm, es|].
      intros (? & ? & ? & ? & ?). by simplify_eq.
  - do 2 eexists. split; [done|]. split; [done|].
    split; [by apply (validate_not_array h' _ messages)|].
    split; [by apply (isEvaluationRow_not_array h' _ messages)|].
    assert (∀ lm es, messages = VRef lm → h !! lm = Some (OArray es) → False)
      as Hno.
    { intros lm es -> E. apply (lookup_array_alloc_plain h l ps) in E; [|done].
      by rewrite (IsArray_ref h' _ _ E) in A. }
    split; (split; [done|]).
    + intros (lm & es & ? & ? & _). by destruct (Hno lm es).
    + intros (lm & es & ? & ? & _). by destruct (Hno lm es).
Qed.

(** ** The type guard and the conversation length through JSON *)

Lemma forallb_kinds h es :
  forallb (λ kind : bool * bool, kind.1 && kind.2) (message_kind h <$> es)
  = forallb (message_ok h) es.
Proof. induction es as [|msg es IH]; [done|]. cbn. by rewrite IH. Qed.

(** The guard depends on the row only through its view. *)
Lemma isEvaluationRow_view h row :
  isEvaluationRow h row = Ok (VBool true)
  ↔ ∃ kinds, row_view h row = Messages kinds
      ∧ forallb (λ kind : bool * bool, kind.1 && kind.2) kinds = true.
Proof.
  unfold row_view. destruct (ToBoolean row) eqn:T.
  2:{ rewrite isEvaluationRow_falsy by done. split.
      - intros [= ->]. done.
      - by intros (? & ? & _). }
  destruct (Get_not_nullish h row "messages") as [messages G];
    [by apply truthy_not_nullish|].
  rewrite G. destruct (IsArray h messages) eqn:A.
  - apply IsArray_inv in A as (lm & es & -> & E).
    rewrite (isEvaluationRow_array h row lm es) by done.
    cbn [messages_view]. rewrite E, <-forallb_kinds. split.
    + intros [= H]. by eexists.
    + intros (kinds & [= <-] & ->). done.
  - rewrite (isEvaluationRow_not_array h row messages) by done.
    split; [done|]. intros (kinds & Hview & _).
    destruct messages as [| | | | |lm]; try done. cbn in *.
    by destruct (h !! lm) as [[es|ps]|].
Qed.

Lemma row_view_messages_inv h row kinds :
  row_view h row = Messages kinds →
  ∃ lm es, Get h row "messages" = Ok (VRef lm)
    ∧ h !! lm = Some (OArray es)
    ∧ kinds = message_kind h <$> es.
Proof.
  unfold row_view. destruct (ToBoolean row); [|done].
  destruct (Get h row "messages") as [[| | | | |lm]|]; try done.
  cbn [messages_view]. destruct (h !! lm) as [[es|ps]|] eqn:E; try done.
  intros [= <-]. by exists lm, es.
Qed.

Lemma row_view_messages h row lm es :
  Get h row "messages" = Ok (VRef lm) →
  h !! lm = Some (OArray es) →
  row_view h row = Messages (message_kind h <$> es).
Proof.
  intros G E. destruct (Get_ref_inv _ _ _ _ G) as [l ->].
  unfold row_view. cbn [ToBoolean]. rewrite G. cbn [messages_view].
  by rewrite E.
Qed.

(** X14.  Serialising a row with [JSON.stringify] and reading it back
    keeps the answer of the type guard and the length of the conversation:
    [isEvaluationRow] returns [true] for the copy exactly when it does for
    the row, and when [row.messages] is an array, [getConversationLength]
    of the copy is the number of its elements. *)
Theorem guard_json_roundtrip (h : heap) (row : value) (j : json)
    (Hdocument : stringify h row = Some (Ok (Some j)))
    (Hfinite : is_infinity row = false) :
  ∃ row' h',
    roundtrip h row = Some (Ok (row', h'))
    ∧ (isEvaluationRow h' row' = Ok (VBool true)
       ↔ isEvaluationRow h row = Ok (VBool true))
    ∧ (∀ lm es, Get h row "messages" = Ok (VRef lm) →
         h !! lm = Some (OArray es) →
         getConversationLength h row = Ok (VNum (num_of_nat (length es)))
         ∧ getConversationLength h' row'
           = Ok (VNum (num_of_nat (length es)))).
Proof.
  destruct (parse j h) as [row' h'] eqn:Hparse.
  assert (row_view h' row' = row_view h row) as Hview.
  { rewrite (parse_view _ _ _ _ Hparse). by eapply serialize_view. }
  assert (∀ h0 row0 lm es, Get h0 row0 "messages" = Ok (VRef lm) →
            h0 !! lm = Some (OArray es) →
            getConversationLength h0 row0
            = Ok (VNum (num_of_nat (length es)))) as Hlen.
  { intros h0 row0 lm es G E. unfold getConversationLength. rewrite G.
    cbn [mbind outcome_bind]. rewrite Get_ref. unfold field. rewrite E.
    unfold array_get. by rewrite bool_decide_eq_true_2. }
  exists row', h'. split_and!.
  - unfold roundtrip. by rewrite Hdocument, Hparse.
  - by rewrite !isEvaluationRow_view, Hview.
  - intros lm es G E. split; [by apply (Hlen h row lm es)|].
    rewrite (row_view_messages h row lm es) in Hview by done.
    apply row_view_messages_inv in Hview as (lm' & es' & G' & E' & Hkinds).
    rewrite (Hlen h' row' lm' es') by done.
    apply (f_equal length) in Hkinds. rewrite !length_fmap in Hkinds.
    by rewrite Hkinds.
Qed.

Lemma guard_json_roundtrip_witness :
  ∃ row' h',
    roundtrip Examples.store (VRef 1) = Some (Ok (row', h'))
    ∧ isEvaluationRow h' row' = Ok (VBool true)
    ∧ getConversationLength h' row' = Ok (VNum (num_of_nat 4)).
Proof.
  destruct (stringify Examples.store (VRef 1)) as [[[j|]|]|] eqn:Hdocument;
    try (vm_compute in Hdocument; discriminate).
  destruct (guard_json_roundtrip Examples.store (VRef 1) j)
    as (row' & h' & Hround & Hguard & Hlen); [done..|].
  exists row', h'. split_and!; [done| |].
  - apply Hguard. by vm_compute.
  - by apply (Hlen 2%positive [VRef 3; VRef 4; VRef 5; VRef 6]); vm_compute.
Defined.

(** ** Results outside the declared types *)


(** X16.  [isEvaluationRow(obj)] returns the value of its [&&] chain, which
    is not always a boolean: for an [obj] that is not truthy ([null],
    [undefined], [0], [NaN], the empty string, [false]) it returns [obj]
    itself, and for every other [obj] it returns [true] or [false].  The
    result is truthy only when it is [true]. *)
Theorem isEvaluationRow_result (h : heap) (obj : value) :
  ∃ v, isEvaluationRow h obj = Ok v
    ∧ (ToBoolean obj = false → v = obj)
    ∧ (ToBoolean obj = true → ∃ b, v = VBool b)
    ∧ (ToBoolean v = true ↔ v = VBool true).
Proof.
  destruct (ToBoolean obj) eqn:T.
  2:{ exists obj. split; [by apply isEvaluationRow_falsy|].
      split; [done|]. split; [done|]. rewrite T. split; [done|].
      intros ->. done. }
  destruct (Get_not_nullish h obj "messages") as [messages G];
    [by apply truthy_not_nullish|].
  destruct (IsArray h messages) eqn:A.
  - apply IsArray_inv in A as (lm & es & -> & E).
    eexists. split; [by apply (isEvaluationRow_array h obj lm es)|].
    split; [done|]. split; [by eexists|].
    by destruct (forallb _ _).
  - exists (VBool false).
    split; [by apply (isEvaluationRow_not_array h obj messages)|].
    split; [done|]. split; [by eexists|done].
Qed.

(** * The examples of example.ts *)

(** ** Evaluation in a store given by its objects *)

Lemma alloc_lookup h o :
  ∃ l h', alloc h o = (VRef l, h') ∧ h ⊆ h' ∧ h !! l = None
    ∧ h' !! l = Some o.
Proof.
  destruct (alloc_fresh h o) as (l & Hl & Hfresh%not_elem_of_dom).
  exists l, (<[l := o]> h). split_and!; [done| |done|apply lookup_insert_eq].
  by apply insert_subseteq.
Qed.

Lemma createEvaluationRow_plain h messages lo po :
  h !! lo = Some (OPlain po) →
  createEvaluationRow h messages (VRef lo)
  = Ok (alloc h (OPlain
      (<["evaluation_result" := default VUndefined (po !! "evaluationResult")]>
      (<["ground_truth" := default VUndefined (po !! "groundTruth")]>
      (<["input_metadata" := default VUndefined (po !! "inputMetadata")]>
      (<["tools" := default VUndefined (po !! "tools")]>
      (<["messages" := messages]> ∅))))))).
Proof.
  intros Hlo. unfold createEvaluationRow, OptGet. cbn [nullish Get].
  unfold field. by rewrite Hlo.
Qed.

(** One allocation: the new object is recorded, and what is known of the
    store is carried over to the new store. *)
Ltac alloc_step :=
  match goal with
  | |- context [alloc ?h ?o] =>
      let l := fresh "l" in
      let h' := fresh "h" in
      let Hsub := fresh "Hsub" in
      let Hnew := fresh "Hnew" in
      let Hl := fresh "Hl" in
      destruct (alloc_lookup h o) as (l & h' & -> & Hsub & Hnew & Hl);
      repeat match goal with
      | H : h !! _ = Some _ |- _ =>
          apply (λ H', lookup_weaken _ _ _ _ H' Hsub) in H
      | H : ?b ⊆ h |- _ =>
          pose proof (lookup_weaken_None _ _ _ Hnew H);
          apply (λ H', transitivity H' Hsub) in H
      end;
      clear Hnew Hsub; try clear h;
      cbv beta iota
  end.

(** The value of a property of a known object, of a lookup in an object
    literal, and of a test on constants. *)
Ltac eval_field :=
  match goal with
  | H : ?h !! ?l = Some ?o |- context [field ?h ?l ?k] =>
      let v := eval vm_compute in
        (match o with
         | OArray es => array_get es k
         | OPlain ps => default VUndefined (ps !! k)
         end) in
      replace (field h l k) with v
        by (unfold field; rewrite H; vm_compute; reflexivity)
  end.

Ltac eval_lookup :=
  match goal with
  | H : ?h !! ?l = Some ?o |- context [?h !! ?l] => rewrite H
  end.

Ltac eval_closed t :=
  let v := eval vm_compute in t in
  replace t with v by (vm_compute; reflexivity).

Ltac eval_test t :=
  let v := eval vm_compute in t in
  lazymatch v with
  | true => replace t with true by (vm_compute; reflexivity)
  | false => replace t with false by (vm_compute; reflexivity)
  end.

Ltac eval_constant :=
  match goal with
  | |- context [default VUndefined (?m !! ?k)] =>
      eval_closed (default VUndefined (m !! k))
  | |- context [map_to_list ?m] => eval_closed (map_to_list m)
  | |- context [bool_decide ?P] => eval_test (bool_decide P)
  | |- context [num_eqb ?a ?b] => eval_test (num_eqb a b)
  | |- context [num_ltb ?a ?b] => eval_test (num_ltb a b)
  | |- context [num_is_zero ?a] => eval_test (num_is_zero a)
  | |- context [num_is_nan ?a] => eval_test (num_is_nan a)
  end.

Ltac heap_eval :=
  repeat first
    [ eval_field | eval_lookup | eval_constant
    | progress unfold land, lor, message_guard, role_is, check_message, push,
        forEach, gt_num
    | progress cbn [Get OptGet nullish ToBoolean typeof strict_eq coalesce
                    mbind outcome_bind IsArray array_receiver
                    every filter_elems forEach_from some
                    negb andb orb Bool.eqb length app fst snd
                    conforms forallb ToNumber ToString] ].

Ltac run_example :=
  repeat first
    [ progress heap_eval
    | erewrite createEvaluationRow_plain by eassumption
    | alloc_step ].

Lemma bind_Ok {A B} (v : A) (k : A → outcome B) : (Ok v ≫= k) = k v.
Proof. done. Qed.

(** The call at the head of a sequence of statements. *)
Ltac eval_head :=
  lazymatch goal with
  | |- _ (?m ≫= _) =>
      let H := fresh in
      eassert (m = Ok _) as H
        by (first [ erewrite createEvaluationRow_plain by eassumption
                  | unfold isEvaluationRow, isTrajectoryEvaluation,
                      getAssistantMessages, getInputMetadata,
                      validateEvaluationRow ];
            heap_eval;
            lazymatch goal with |- Ok _ = Ok _ => reflexivity end);
      rewrite H; clear H; rewrite bind_Ok; cbv beta iota zeta
  end.

Ltac unfold_types :=
  unfold EvaluationRow, EvaluateResult, MetricResult, StepOutput, Message,
    ToolCall, FunctionCall, required, optional.

(** X17.  In every store, [createPerTurnExample()] returns a new row and
    leaves the objects of the store as they were.  The row has the declared
    type [EvaluationRow], the type guard accepts it and the validator
    reports no error; it holds two messages and is not a trajectory
    evaluation.  Its metadata has [row_id] "math_001", but no property named
    "dataset_info.source": that lookup gives the default. *)
Theorem createPerTurnExample_row
    (StringToNumber : string → number)
    (ObjectToNumber : heap → loc → outcome number) (h : heap) :
  ∃ l h',
    createPerTurnExample h = Ok (VRef l, h')
    ∧ h ⊆ h' ∧ h !! l = None
    ∧ conforms h' EvaluationRow (VRef l) = true
    ∧ isEvaluationRow h' (VRef l) = Ok (VBool true)
    ∧ validateEvaluationRow h' (VRef l) = Ok (Report true [])
    ∧ isTrajectoryEvaluation StringToNumber ObjectToNumber h' (VRef l)
      = Ok (VBool false)
    ∧ getConversationLength h' (VRef l) = Ok (VNum (num_of_nat 2))
    ∧ getInputMetadata h' (VRef l) "row_id" VUndefined
      = Ok (VStr "math_001")
    ∧ getInputMetadata h' (VRef l) "dataset_info.source" (VStr "unknown")
      = Ok (VStr "unknown").
Proof.
  unfold createPerTurnExample, object_literal, array_literal.
  assert (h ⊆ h) as Hbase by done.
  run_example.
  do 2 eexists. split; [done|]. split; [done|]. split; [done|].
  split_and!.
  - unfold_types. by heap_eval.
  - unfold isEvaluationRow. by heap_eval.
  - unfold validateEvaluationRow. by heap_eval.
  - unfold isTrajectoryEvaluation. by heap_eval.
  - unfold getConversationLength. by heap_eval.
  - unfold getInputMetadata. by heap_eval.
  - unfold getInputMetadata. by heap_eval.
Qed.

(** X18.  In every store, [createTrajectoryExample()] returns a new row of
    the declared type [EvaluationRow] that the guard accepts and the
    validator finds without error.  It is a trajectory evaluation, holds
    four messages of which two are assistant messages, and its metadata has
    no property named "session_data.environment": that lookup gives the
    default. *)
Theorem createTrajectoryExample_row
    (StringToNumber : string → number)
    (ObjectToNumber : heap → loc → outcome number) (h : heap) :
  ∃ l h',
    createTrajectoryExample h = Ok (VRef l, h')
    ∧ h ⊆ h' ∧ h !! l = None
    ∧ conforms h' EvaluationRow (VRef l) = true
    ∧ isEvaluationRow h' (VRef l) = Ok (VBool true)
    ∧ validateEvaluationRow h' (VRef l) = Ok (Report true [])
    ∧ isTrajectoryEvaluation StringToNumber ObjectToNumber h' (VRef l)
      = Ok (VBool true)
    ∧ getConversationLength h' (VRef l) = Ok (VNum (num_of_nat 4))
    ∧ (∃ assistants h'',
         getAssistantMessages h' (VRef l) = Ok (assistants, h'')
         ∧ Get h'' assistants "length" = Ok (VNum (num_of_nat 2)))
    ∧ getInputMetadata h' (VRef l) "row_id" VUndefined
      = Ok (VStr "trajectory_001")
    ∧ getInputMetadata h' (VRef l) "session_data.environment"
        (VStr "unknown")
      = Ok (VStr "unknown").
Proof.
  unfold createTrajectoryExample, object_literal, array_literal.
  assert (h ⊆ h) as Hbase by done.
  run_example.
  do 2 eexists. split; [done|]. split; [done|]. split; [done|].
  split_and!.
  - unfold_types. by heap_eval.
  - unfold isEvaluationRow. by heap_eval.
  - unfold validateEvaluationRow. by heap_eval.
  - unfold isTrajectoryEvaluation. by heap_eval.
  - unfold getConversationLength. by heap_eval.
  - unfold getAssistantMessages. run_example.
    do 2 eexists. split; [done|]. by heap_eval.
  - unfold getInputMetadata. by heap_eval.
  - unfold getInputMetadata. by heap_eval.
Qed.

(** X19.  In every store, [createToolUsageExample()] returns a new row of
    the declared type [EvaluationRow] that the guard accepts and the
    validator finds without error.  It is not a trajectory evaluation, holds
    two messages, and its [tools] is an array of one tool. *)
Theorem createToolUsageExample_row
    (StringToNumber : string → number)
    (ObjectToNumber : heap → loc → outcome number) (h : heap) :
  ∃ l h',
    createToolUsageExample h = Ok (VRef l, h')
    ∧ h ⊆ h' ∧ h !! l = None
    ∧ conforms h' EvaluationRow (VRef l) = true
    ∧ isEvaluationRow h' (VRef l) = Ok (VBool true)
    ∧ validateEvaluationRow h' (VRef l) = Ok (Report true [])
    ∧ isTrajectoryEvaluation StringToNumber ObjectToNumber h' (VRef l)
      = Ok (VBool false)
    ∧ getConversationLength h' (VRef l) = Ok (VNum (num_of_nat 2))
    ∧ (∃ tools, Get h' (VRef l) "tools" = Ok tools
         ∧ IsArray h' tools = true
         ∧ Get h' tools "length" = Ok (VNum (num_of_nat 1)))
    ∧ getInputMetadata h' (VRef l) "row_id" VUndefined
      = Ok (VStr "search_001").
Proof.
  unfold createToolUsageExample, object_literal, array_literal.
  assert (h ⊆ h) as Hbase by done.
  run_example.
  do 2 eexists. split; [done|]. split; [done|]. split; [done|].
  split_and!.
  - unfold_types. by heap_eval.
  - unfold isEvaluationRow. by heap_eval.
  - unfold validateEvaluationRow. by heap_eval.
  - unfold isTrajectoryEvaluation. by heap_eval.
  - unfold getConversationLength. by heap_eval.
  - eexists. split; [by heap_eval|]. split; by heap_eval.
  - unfold getInputMetadata. by heap_eval.
Qed.

(** X20.  [demonstrateUsage()] runs to its end in every store and writes
    these twenty-one lines, provided numbers that are natural are written in
    decimal.  In particular the two metadata lookups with a dotted key print
    "unknown", and the object whose [messages] is a string is reported with
    the single error "messages field is required and must be an array". *)
Theorem demonstrateUsage_output
    (StringToNumber : string → number)
    (ObjectToNumber : heap → loc → outcome number)
    (NumberToString : number → string)
    (ObjectToString : heap → loc → outcome string)
    (h : heap)
    (Hdecimal : ∀ n : nat, NumberToString (num_of_nat n) = pretty n) :
  ∃ h',
    demonstrateUsage StringToNumber ObjectToNumber NumberToString
      ObjectToString h
    = Ok (["=== EvaluationRow Schema Examples ===" +:+ newline;
           "1. Per-Turn Evaluation:";
           "   Valid: true";
           "   Is Trajectory: false";
           "   Assistant Messages: 1";
           "   Dataset Source: unknown";
           "";
           "2. Trajectory Evaluation:";
           "   Valid: true";
           "   Is Trajectory: true";
           "   Steps: 2";
           "   Environment: unknown";
           "";
           "3. Tool Usage:";
           "   Valid: true";
           "   Has Tools: true";
           "   Tool Calls: true";
           "";
           "4. Validation Example:";
           "   Valid: false";
           "   Errors: messages field is required and must be an array"],
          h')
    ∧ h ⊆ h'.
Proof.
  assert (NumberToString (Finite false 1 0) = "1") as Hone
    by apply (Hdecimal 1).
  assert (NumberToString (Finite false 2 0) = "2") as Htwo
    by apply (Hdecimal 2).
  assert (h ⊆ h) as Hbase by done.
  match goal with
  | |- ∃ h', _ = Ok (?lines, h') ∧ _ =>
      pose (post := λ r : outcome (list string * heap),
              ∃ h', r = Ok (lines, h') ∧ h ⊆ h')
  end.
  change (post (demonstrateUsage StringToNumber ObjectToNumber NumberToString
                  ObjectToString h)).
  unfold demonstrateUsage, createPerTurnExample, createTrajectoryExample,
    createToolUsageExample, object_literal, array_literal, log, join.
  repeat first [eval_head | alloc_step].
  rewrite Hone, Htwo. eexists. split; [reflexivity|done].
Qed.

Lemma demonstrateUsage_output_witness :
  ∃ out h',
    demonstrateUsage Examples.StringToNumber Examples.ObjectToNumber
      natural_to_string object_to_string ∅ = Ok (out, h')
    ∧ length out = 21.
Proof.
  destruct (demonstrateUsage_output Examples.StringToNumber
              Examples.ObjectToNumber natural_to_string object_to_string ∅)
    as (h' & Hout & _); [reflexivity|].
  do 2 eexists. split; [exact Hout|reflexivity].
Defined.
